(** * Order service: createOrder, updateInstallments, getOrdersByClient

    A shallow embedding of the three Lambda handlers of
    [lib/functions/] and of the table declared by the CDK stack, with a
    model of the DynamoDB operations the handlers send, followed by the
    properties of the order service checked against that embedding.

    Conventions of the embedding.
    - A JavaScript number is an integer [VNum n] or [VNaN]; fractional
      numbers are outside the model.
    - [JSON.parse] is a language builtin and is taken as a parameter
      [JSON_parse] of the handlers; a response body holds the JSON document
      that [JSON.stringify] serialises instead of its text.
    - The clock and the random generator are inputs of an invocation.
    - Logging and tracing are left out.
    - A handler is a program that may send commands to the store; running
      it against a store client gives the response, the final store and the
      list of the commands sent. *)

From Stdlib Require Import ZArith QArith Qround List String Ascii Bool Lia.
From Stdlib Require Import Permutation.
Import ListNotations.

#[local] Set Warnings "-register-all".

Open Scope string_scope.
Open Scope Z_scope.

(** ** JavaScript values *)

Inductive value : Type :=
| VUndefined
| VNull
| VBool (b : bool)
| VNaN
| VNum (n : Z)
| VBigInt (n : Z)
| VStr (s : string)
| VArr (elems : list value)
| VObj (props : list (string * value)).

(** A thrown JavaScript error: its name and its message. *)
Inductive Exc : Type :=
| Error (name message : string).

Definition result (A : Type) : Type := (Exc + A)%type.

Definition MAX_SAFE_INTEGER : Z := 9007199254740991.
Definition MIN_SAFE_INTEGER : Z := -9007199254740991.

(** [o[k]] on the property list of an object: the last definition of a
    key wins in an object literal; the lists built here have no repeated
    key. *)
Fixpoint assoc {A : Type} (k : string) (l : list (string * A)) : option A :=
  match l with
  | [] => None
  | (k', v) :: r => if String.eqb k k' then Some v else assoc k r
  end.

(** [v.k]: a property read throws on [null] and [undefined], is
    [undefined] on the other primitives and on a missing property. *)
Definition get_prop (v : value) (k : string) : result value :=
  match v with
  | VUndefined | VNull =>
      inl (Error "TypeError" "Cannot read properties of null or undefined")
  | VObj props =>
      match assoc k props with
      | Some x => inr x
      | None => inr VUndefined
      end
  | _ => inr VUndefined
  end.

(** Truthiness of a [string | undefined], as tested by [!x] and [x && y]. *)
Definition truthy (o : option string) : bool :=
  match o with
  | Some s => negb (String.eqb s EmptyString)
  | None => false
  end.

(** ** parseInt *)

(** Leading white space skipped by [parseInt]: the ASCII white space and
    line terminators, and the UTF-8 encodings of the other code points of
    StrWhiteSpaceChar. *)
Definition ascii_ws (c : ascii) : bool :=
  let n := nat_of_ascii c in
  ((9 <=? n) && (n <=? 13))%nat || (n =? 32)%nat.

Fixpoint skip_ws (fuel : nat) (s : string) : string :=
  match fuel with
  | O => s
  | S fuel' =>
      match s with
      | String c r =>
          if ascii_ws c then skip_ws fuel' r
          else
            match s with
            | String "194" (String "160" r2) => skip_ws fuel' r2
            | String "239" (String "187" (String "191" r3)) => skip_ws fuel' r3
            | String "225" (String "154" (String "128" r3)) => skip_ws fuel' r3
            | String "227" (String "128" (String "128" r3)) => skip_ws fuel' r3
            | String "226" (String "129" (String "159" r3)) => skip_ws fuel' r3
            | String "226" (String "128" (String d r3)) =>
                let n := nat_of_ascii d in
                if ((128 <=? n) && (n <=? 138))%nat
                   || (n =? 168)%nat || (n =? 169)%nat || (n =? 175)%nat
                then skip_ws fuel' r3 else s
            | _ => s
            end
      | EmptyString => s
      end
  end.

(** The value of a digit in the given radix, if it is one. *)
Definition digit_of (radix : Z) (c : ascii) : option Z :=
  let n := Z.of_nat (nat_of_ascii c) in
  let d :=
    if (48 <=? n) && (n <=? 57) then Some (n - 48)
    else if (97 <=? n) && (n <=? 122) then Some (n - 87)
    else if (65 <=? n) && (n <=? 90) then Some (n - 55)
    else None in
  match d with
  | Some x => if x <? radix then Some x else None
  | None => None
  end.

(** The longest prefix of digits, read in the radix; [None] when the
    prefix is empty. *)
Fixpoint read_digits (radix : Z) (acc : option Z) (s : string) : option Z :=
  match s with
  | EmptyString => acc
  | String c r =>
      match digit_of radix c with
      | Some d =>
          read_digits radix
            (Some (match acc with Some a => a * radix + d | None => d end)) r
      | None => acc
      end
  end.

(** [parseInt(s)] without a radix: white space, a sign, an optional
    [0x]/[0X] prefix, then the digits; [NaN] when there is no digit.
    The result is exact: where JavaScript rounds, the integer is beyond
    the safe range and every use in the handlers rejects it
    ([convertToAttr]). *)
Definition parseInt (s : string) : value :=
  let s1 := skip_ws (String.length s) s in
  let '(sign, s2) :=
    match s1 with
    | String "-" r => (-1, r)
    | String "+" r => (1, r)
    | _ => (1, s1)
    end in
  let '(radix, s3) :=
    match s2 with
    | String "0" (String "x" r) => (16, r)
    | String "0" (String "X" r) => (16, r)
    | _ => (10, s2)
    end in
  match read_digits radix None s3 with
  | Some n => VNum (sign * n)
  | None => VNaN
  end.

Definition isNaN (v : value) : bool :=
  match v with
  | VNaN => true
  | _ => false
  end.

(** ** DynamoDB attribute values, marshall and unmarshall *)

Inductive AttributeValue : Type :=
| AV_N (n : Z)
| AV_S (s : string)
| AV_BOOL (b : bool)
| AV_NULL
| AV_L (l : list AttributeValue)
| AV_M (m : list (string * AttributeValue)).

Definition Item : Type := list (string * AttributeValue).

(** [convertToAttr] of @aws-sdk/util-dynamodb with the default options:
    [undefined] and the special numbers are refused, and so is a number
    beyond the safe integers. *)
Fixpoint convertToAttr (v : value) : result AttributeValue :=
  match v with
  | VUndefined =>
      inl (Error "Error"
             "Pass options.removeUndefinedValues=true to remove undefined values from map/array/set.")
  | VNull => inr AV_NULL
  | VBool b => inr (AV_BOOL b)
  | VNaN => inl (Error "Error" "Special numeric value NaN is not allowed")
  | VNum n =>
      if n >? MAX_SAFE_INTEGER
      then inl (Error "Error" "Number is greater than Number.MAX_SAFE_INTEGER. Use BigInt.")
      else if n <? MIN_SAFE_INTEGER
      then inl (Error "Error" "Number is lesser than Number.MIN_SAFE_INTEGER. Use BigInt.")
      else inr (AV_N n)
  | VBigInt n => inr (AV_N n)
  | VStr s => inr (AV_S s)
  | VArr elems =>
      match
        (fix go (l : list value) : result (list AttributeValue) :=
           match l with
           | [] => inr []
           | x :: r =>
               match convertToAttr x with
               | inl e => inl e
               | inr a =>
                   match go r with
                   | inl e => inl e
                   | inr ar => inr (a :: ar)
                   end
               end
           end) elems
      with
      | inl e => inl e
      | inr l => inr (AV_L l)
      end
  | VObj props =>
      match
        (fix go (l : list (string * value)) : result Item :=
           match l with
           | [] => inr []
           | (k, x) :: r =>
               match convertToAttr x with
               | inl e => inl e
               | inr a =>
                   match go r with
                   | inl e => inl e
                   | inr ar => inr ((k, a) :: ar)
                   end
               end
           end) props
      with
      | inl e => inl e
      | inr m => inr (AV_M m)
      end
  end.

(** [marshall(data)] on an object literal, given by its properties. *)
Definition marshall (props : list (string * value)) : result Item :=
  match convertToAttr (VObj props) with
  | inl e => inl e
  | inr (AV_M m) => inr m
  | inr _ => inr []
  end.

(** [convertToNative] with the default options: a number beyond the safe
    integers comes back as a BigInt. *)
Fixpoint convertToNative (a : AttributeValue) : value :=
  match a with
  | AV_N n =>
      if (n >? MAX_SAFE_INTEGER) || (n <? MIN_SAFE_INTEGER)
      then VBigInt n else VNum n
  | AV_S s => VStr s
  | AV_BOOL b => VBool b
  | AV_NULL => VNull
  | AV_L l => VArr (map convertToNative l)
  | AV_M m =>
      VObj ((fix go (l : Item) : list (string * value) :=
               match l with
               | [] => []
               | (k, x) :: r => (k, convertToNative x) :: go r
               end) m)
  end.

Definition unmarshall (item : Item) : value :=
  convertToNative (AV_M item).

(** ** JSON.stringify *)

(** The JSON document [JSON.stringify] serialises: a property whose value
    is [undefined] is left out, [undefined] and [NaN] in other places
    become [null], and a BigInt is a TypeError. *)
Fixpoint JSON_stringify (v : value) : result value :=
  match v with
  | VUndefined => inr VNull
  | VNaN => inr VNull
  | VBigInt _ => inl (Error "TypeError" "Do not know how to serialize a BigInt")
  | VArr elems =>
      match
        (fix go (l : list value) : result (list value) :=
           match l with
           | [] => inr []
           | x :: r =>
               match JSON_stringify x with
               | inl e => inl e
               | inr a =>
                   match go r with
                   | inl e => inl e
                   | inr ar => inr (a :: ar)
                   end
               end
           end) elems
      with
      | inl e => inl e
      | inr l => inr (VArr l)
      end
  | VObj props =>
      match
        (fix go (l : list (string * value)) : result (list (string * value)) :=
           match l with
           | [] => inr []
           | (k, VUndefined) :: r => go r
           | (k, x) :: r =>
               match JSON_stringify x with
               | inl e => inl e
               | inr a =>
                   match go r with
                   | inl e => inl e
                   | inr ar => inr ((k, a) :: ar)
                   end
               end
           end) props
      with
      | inl e => inl e
      | inr m => inr (VObj m)
      end
  | _ => inr v
  end.

(** ** The table and the DynamoDB operations

    The store is DynamoDB, an external service.  The model below keeps what
    the handlers rely on: a table with a numeric or string partition key
    and sort key, the validation of keys and expressions against the key
    schema, the replacement of an item by [PutItem], the creation of a
    missing item by [UpdateItem], and the partition read of [Query]
    followed by its filter.  A [Query] answers with the whole partition:
    the 1 MB page limit is left out, and so are the binary and set
    attribute types. *)

Inductive AttributeType : Type := NUMBER | STRING | BINARY.

Record Attribute : Type := { name : string; type : AttributeType }.

Record TableProps : Type := {
  tableName : string;
  partitionKey : Attribute;
  sortKey : Attribute
}.

Record DynamoDB : Type := {
  props : TableProps;
  items : list Item
}.

(** [SET path = operand] of an update expression and [path = operand] of a
    key condition or filter expression; an operand is a placeholder of
    [ExpressionAttributeValues]. *)
Inductive UpdateAction : Type := SET (path operand : string).
Inductive Comparison : Type := EQ (path operand : string).
Inductive Condition : Type :=
| attribute_exists (path : string)
| attribute_not_exists (path : string).

Inductive Command : Type :=
| PutItemCommand (TableName : string) (Item_ : Item)
| UpdateItemCommand (TableName : string) (Key : Item)
    (UpdateExpression : list UpdateAction)
    (ConditionExpression : option Condition)
    (ExpressionAttributeValues : Item) (ReturnValues : string)
| QueryCommand (TableName : string) (KeyConditionExpression : Comparison)
    (FilterExpression : option Comparison)
    (ExpressionAttributeValues : Item).

(** The fields of a command output that the handlers may read. *)
Record Output : Type := {
  Attributes : option Item;
  Items : option (list Item)
}.

Definition ValidationException (msg : string) : Exc :=
  Error "ValidationException" msg.

Definition has_type (t : AttributeType) (a : AttributeValue) : bool :=
  match t, a with
  | NUMBER, AV_N _ => true
  | STRING, AV_S _ => true
  | _, _ => false
  end.

Definition key_attr_ok (k : Attribute) (it : Item) : bool :=
  match assoc (name k) it with
  | Some a => has_type (type k) a
  | None => false
  end.

(** Equality of attribute values as the comparator [=] decides it on
    scalars; a list or a map is never equal to a scalar, and the handlers
    compare with scalars only. *)
Definition attr_eqb (a b : AttributeValue) : bool :=
  match a, b with
  | AV_N x, AV_N y => x =? y
  | AV_S x, AV_S y => String.eqb x y
  | AV_BOOL x, AV_BOOL y => Bool.eqb x y
  | AV_NULL, AV_NULL => true
  | _, _ => false
  end.

Definition attr_is (k : string) (v : AttributeValue) (it : Item) : bool :=
  match assoc k it with
  | Some a => attr_eqb a v
  | None => false
  end.

(** [same_key tp k it]: the item [it] has the primary key given by [k]. *)
Definition same_key (tp : TableProps) (k it : Item) : bool :=
  match assoc (name (partitionKey tp)) k, assoc (name (sortKey tp)) k with
  | Some p, Some s =>
      attr_is (name (partitionKey tp)) p it && attr_is (name (sortKey tp)) s it
  | _, _ => false
  end.

Definition is_key_attr (tp : TableProps) (a : string) : bool :=
  String.eqb a (name (partitionKey tp)) || String.eqb a (name (sortKey tp)).

Fixpoint set_attr (k : string) (v : AttributeValue) (it : Item) : Item :=
  match it with
  | [] => [(k, v)]
  | (k', v') :: r =>
      if String.eqb k k' then (k, v) :: r else (k', v') :: set_attr k v r
  end.

Definition replace_item (tp : TableProps) (new : Item) (l : list Item)
  : list Item :=
  map (fun it => if same_key tp new it then new else it) l.

(** Writes the item under its key: replaces the stored item of that key,
    or adds the item. *)
Definition store_item (tp : TableProps) (new : Item) (l : list Item)
  : list Item :=
  if existsb (same_key tp new) l then replace_item tp new l else l ++ [new].

Definition sort_key_leb (tp : TableProps) (a b : Item) : bool :=
  match assoc (name (sortKey tp)) a, assoc (name (sortKey tp)) b with
  | Some (AV_N x), Some (AV_N y) => x <=? y
  | Some (AV_S x), Some (AV_S y) => String.leb x y
  | _, _ => true
  end.

Fixpoint insert_sorted (tp : TableProps) (x : Item) (l : list Item)
  : list Item :=
  match l with
  | [] => [x]
  | y :: r =>
      if sort_key_leb tp x y then x :: l else y :: insert_sorted tp x r
  end.

Definition sort_by_sort_key (tp : TableProps) (l : list Item) : list Item :=
  fold_right (insert_sorted tp) [] l.

(** The operands of the actions, resolved in the expression values. *)
Fixpoint resolve_actions (values : Item) (acts : list UpdateAction)
  : option (list (string * AttributeValue)) :=
  match acts with
  | [] => Some []
  | SET p o :: r =>
      match assoc o values, resolve_actions values r with
      | Some v, Some l => Some ((p, v) :: l)
      | _, _ => None
      end
  end.

Definition apply_sets (sets : list (string * AttributeValue)) (it : Item)
  : Item :=
  fold_left (fun acc pv => set_attr (fst pv) (snd pv) acc) sets it.

Definition check_condition (c : option Condition) (existing : option Item)
  : bool :=
  match c with
  | None => true
  | Some (attribute_exists p) =>
      match existing with
      | Some it => match assoc p it with Some _ => true | None => false end
      | None => false
      end
  | Some (attribute_not_exists p) =>
      match existing with
      | Some it => match assoc p it with Some _ => false | None => true end
      | None => true
      end
  end.

(** Every expression value must be used by the expressions. *)
Definition all_used (values : Item) (operands : list string) : bool :=
  forallb (fun kv => existsb (String.eqb (fst kv)) operands) values.

Definition operand_of_action (a : UpdateAction) : string :=
  match a with SET _ o => o end.

Definition path_of_action (a : UpdateAction) : string :=
  match a with SET p _ => p end.

Definition PutItem (it : Item) (db : DynamoDB) : result Output * DynamoDB :=
  let tp := props db in
  if negb (key_attr_ok (partitionKey tp) it && key_attr_ok (sortKey tp) it)
  then (inl (ValidationException
               "One or more parameter values were invalid: Missing the key in the item or type mismatch for key"),
        db)
  else (inr {| Attributes := None; Items := None |},
        {| props := tp; items := store_item tp it (items db) |}).

Definition UpdateItem (key : Item) (acts : list UpdateAction)
  (cond : option Condition) (values : Item) (ret : string) (db : DynamoDB)
  : result Output * DynamoDB :=
  let tp := props db in
  if negb ((List.length key =? 2)%nat
           && key_attr_ok (partitionKey tp) key && key_attr_ok (sortKey tp) key)
  then (inl (ValidationException
               "The provided key element does not match the schema"), db)
  else if existsb (fun a => is_key_attr tp (path_of_action a)) acts
  then (inl (ValidationException
               "Cannot update attribute. This attribute is part of the key"), db)
  else if negb (all_used values (map operand_of_action acts))
  then (inl (ValidationException
               "Value provided in ExpressionAttributeValues unused in expressions"),
        db)
  else
    match resolve_actions values acts with
    | None =>
        (inl (ValidationException
                "An expression attribute value used in expression is not defined"),
         db)
    | Some sets =>
        let existing := find (same_key tp key) (items db) in
        if negb (check_condition cond existing)
        then (inl (Error "ConditionalCheckFailedException"
                     "The conditional request failed"), db)
        else
          let new :=
            apply_sets sets
              (match existing with Some it => it | None => key end) in
          (inr {| Attributes :=
                    if String.eqb ret "ALL_NEW" then Some new else None;
                  Items := None |},
           {| props := tp;
              items :=
                match existing with
                | Some _ =>
                    map (fun it =>
                           if same_key tp key it then apply_sets sets it
                           else it) (items db)
                | None => items db ++ [new]
                end |})
    end.

Definition Query (kc : Comparison) (flt : option Comparison) (values : Item)
  (db : DynamoDB) : result Output * DynamoDB :=
  let tp := props db in
  let '(EQ kpath kop) := kc in
  if negb (String.eqb kpath (name (partitionKey tp)))
  then (inl (ValidationException
               "Query condition missed key schema element"), db)
  else
    match assoc kop values with
    | None =>
        (inl (ValidationException
                "An expression attribute value used in expression is not defined"),
         db)
    | Some kv =>
        if negb (has_type (type (partitionKey tp)) kv)
        then (inl (ValidationException
                     "One or more parameter values were invalid: Condition parameter type does not match schema type"),
              db)
        else
          let partition :=
            sort_by_sort_key tp
              (filter (attr_is (name (partitionKey tp)) kv) (items db)) in
          match flt with
          | None =>
              if negb (all_used values [kop])
              then (inl (ValidationException
                           "Value provided in ExpressionAttributeValues unused in expressions"),
                    db)
              else (inr {| Attributes := None; Items := Some partition |}, db)
          | Some (EQ fpath fop) =>
              if is_key_attr tp fpath
              then (inl (ValidationException
                           "Filter Expression can only contain non-primary key attributes"),
                    db)
              else if negb (all_used values [kop; fop])
              then (inl (ValidationException
                           "Value provided in ExpressionAttributeValues unused in expressions"),
                    db)
              else
                match assoc fop values with
                | None =>
                    (inl (ValidationException
                            "An expression attribute value used in expression is not defined"),
                     db)
                | Some fv =>
                    (inr {| Attributes := None;
                            Items := Some (filter (attr_is fpath fv) partition) |},
                     db)
                end
          end
    end.

(** What the service answers to a command. *)
Definition dynamodb_send (c : Command) (db : DynamoDB)
  : result Output * DynamoDB :=
  let known (n : string) := String.eqb n (tableName (props db)) in
  let not_found :=
    (inl (Error "ResourceNotFoundException"
            "Requested resource not found") : result Output, db) in
  match c with
  | PutItemCommand tn it =>
      if known tn then PutItem it db else not_found
  | UpdateItemCommand tn key acts cond values ret =>
      if known tn then UpdateItem key acts cond values ret db else not_found
  | QueryCommand tn kc flt values =>
      if known tn then Query kc flt values db else not_found
  end.

(** ** Programs that talk to the store *)

Inductive prog (A : Type) : Type :=
| Ret (a : A)
| Throw (e : Exc)
| Send (c : Command) (k : result Output -> prog A).

Arguments Ret {A} a.
Arguments Throw {A} e.
Arguments Send {A} c k.

Fixpoint bind {A B : Type} (p : prog A) (f : A -> prog B) : prog B :=
  match p with
  | Ret a => f a
  | Throw e => Throw e
  | Send c k => Send c (fun r => bind (k r) f)
  end.

(** [try { p } catch (err) { h err }] *)
Fixpoint try_catch {A : Type} (p : prog A) (h : Exc -> prog A) : prog A :=
  match p with
  | Ret a => Ret a
  | Throw e => h e
  | Send c k => Send c (fun r => try_catch (k r) h)
  end.

(** A synchronous call that may throw. *)
Definition lift {A : Type} (r : result A) : prog A :=
  match r with
  | inl e => Throw e
  | inr a => Ret a
  end.

(** [await client.send(c)]: the output, or the rejection thrown. *)
Definition send (c : Command) : prog Output :=
  Send c lift.

Declare Scope prog_scope.
Delimit Scope prog_scope with prog.
Notation "x <- p ;; q" := (bind p (fun x => q))
  (at level 61, p at next level, right associativity) : prog_scope.
Notation "p ;; q" := (bind p (fun _ => q))
  (at level 61, right associativity) : prog_scope.
Open Scope prog_scope.

(** A store client: what it answers to a command in a state, and the
    state it leaves. *)
Definition Client (St : Type) : Type := Command -> St -> result Output * St.

(** Runs a program against a client; the trace lists the commands sent. *)
Fixpoint run {St A : Type} (client : Client St) (p : prog A) (s : St)
  : result A * St * list Command :=
  match p with
  | Ret a => (inr a, s, [])
  | Throw e => (inl e, s, [])
  | Send c k =>
      let '(r, s1) := client c s in
      let '(a, s2, tr) := run client (k r) s1 in
      (a, s2, c :: tr)
  end.

(** The number of commands a program can send, at most. *)
Inductive sends_at_most {A : Type} : nat -> prog A -> Prop :=
| sam_Ret n a : sends_at_most n (Ret a)
| sam_Throw n e : sends_at_most n (Throw e)
| sam_Send n c k :
    (forall r, sends_at_most n (k r)) -> sends_at_most (S n) (Send c k).

(** ** The stack: lib/aws-apigateway-lambda-cdk-stack.ts *)

Module AwsApigatewayLambdaCdkStack.

Definition table : TableProps :=
  {| tableName := "apigateway-lambda-db";
     partitionKey := {| name := "ClientId"; type := NUMBER |};
     sortKey := {| name := "OrderId"; type := NUMBER |} |}.

(** [environment: { TABLE_NAME: table.tableName }], the same for the three
    functions. *)
Definition TABLE_NAME : string := tableName table.

End AwsApigatewayLambdaCdkStack.

(** The other revision of the stack kept with the sources (part_000): the
    same table under another partition key name. *)
Module part_000.

Definition table : TableProps :=
  {| tableName := "apigateway-lambda-db";
     partitionKey := {| name := "ClientID"; type := NUMBER |};
     sortKey := {| name := "OrderId"; type := NUMBER |} |}.

Definition TABLE_NAME : string := tableName table.

End part_000.

(** ** Events, responses and the inputs of an invocation *)

Record APIGatewayEvent : Type := {
  pathParameters : option (list (string * string));
  queryStringParameters : option (list (string * string));
  body : option string
}.

(** [body_json] is the document whose serialisation is the [body] of the
    response. *)
Record APIGatewayProxyResult : Type := {
  statusCode : Z;
  headers : list (string * string);
  body_json : value
}.

(** What an invocation reads from its host: [Date.now()], [Math.random()]
    (a number of [0, 1)) and [new Date().toISOString()]. *)
Record Env : Type := {
  Date_now : Z;
  Math_random : Q;
  new_Date_toISOString : string
}.

(** [event.pathParameters?.k] and [event.queryStringParameters?.k] *)
Definition path_param (event : APIGatewayEvent) (k : string) : option string :=
  match pathParameters event with
  | Some ps => assoc k ps
  | None => None
  end.

Definition query_param (event : APIGatewayEvent) (k : string) : option string :=
  match queryStringParameters event with
  | Some ps => assoc k ps
  | None => None
  end.

(** The string behind a truthy [string | undefined]. *)
Definition the_string (o : option string) : string :=
  match o with
  | Some s => s
  | None => EmptyString
  end.

Definition json_headers : list (string * string) :=
  [("Content-Type", "application/json")].

(** The response of the [catch] block, the same in the three handlers. *)
Definition internal_error : APIGatewayProxyResult :=
  {| statusCode := 500;
     headers := json_headers;
     body_json := VObj [("success", VBool false);
                        ("error", VStr "Erro interno do servidor")] |}.

Definition bad_request (msg : string) : APIGatewayProxyResult :=
  {| statusCode := 400;
     headers := json_headers;
     body_json := VObj [("success", VBool false); ("error", VStr msg)] |}.

(** ** lib/functions/createOrder.ts *)

Module createOrder.

(** [Date.now() * 1000 + Math.floor(Math.random() * 1000)].  The
    arithmetic is exact below 2^53; an identifier beyond it is refused by
    [marshall]. *)
Definition generateOrderId (env : Env) : Z :=
  Date_now env * 1000 + Qfloor (Math_random env * 1000).

Section Handler.

Variable JSON_parse : string -> result value.
Variable TABLE_NAME : string.

(** The [try] block of the handler. *)
Definition try_block (event : APIGatewayEvent) (env : Env)
  : prog APIGatewayProxyResult :=
  order <- lift (JSON_parse (match body event with
                             | Some b => b
                             | None => "null"
                             end)) ;;
  let orderId := generateOrderId env in
  clientId <- lift (get_prop order "clientId") ;;
  items_ <- lift (get_prop order "items") ;;
  paymentMethod <- lift (get_prop order "paymentMethod") ;;
  installments <- lift (get_prop order "installments") ;;
  let item :=
    [("ClientId", clientId);
     ("OrderId", VNum orderId);
     ("Items", items_);
     ("PaymentMethod", paymentMethod);
     ("Installments", installments);
     ("CreatedAt", VStr (new_Date_toISOString env))] in
  marshalledItem <- lift (marshall item) ;;
  _ <- send (PutItemCommand TABLE_NAME marshalledItem) ;;
  doc <- lift (JSON_stringify
                 (VObj [("success", VBool true);
                        ("orderId", VNum orderId);
                        ("clientId", clientId)])) ;;
  Ret {| statusCode := 201; headers := json_headers; body_json := doc |}.

Definition handler (event : APIGatewayEvent) (env : Env)
  : prog APIGatewayProxyResult :=
  try_catch (try_block event env) (fun err => Ret internal_error).

End Handler.

End createOrder.

(** ** lib/functions/updateInstallments.ts *)

Module updateInstallments.

Section Handler.

Variable JSON_parse : string -> result value.
Variable TABLE_NAME : string.

(** The [try] block of the handler. *)
Definition try_block (event : APIGatewayEvent) (env : Env)
  : prog APIGatewayProxyResult :=
  let clientId := path_param event "clientId" in
  let orderId := path_param event "orderId" in
  if negb (truthy clientId) || negb (truthy orderId)
  then Ret (bad_request "clientId e orderId são obrigatórios no path")
  else
    payload <- lift (JSON_parse (if truthy (body event)
                                 then the_string (body event)
                                 else "{}")) ;;
    installments <- lift (get_prop payload "installments") ;;
    key <- lift (marshall
                   [("ClientID", parseInt (the_string clientId));
                    ("OrderId", parseInt (the_string orderId))]) ;;
    let updateExpression :=
      [SET "Installments" ":installments"; SET "UpdatedAt" ":updatedAt"] in
    expressionAttributeValues <-
      lift (marshall
              [(":installments", installments);
               (":updatedAt", VStr (new_Date_toISOString env))]) ;;
    _ <- send (UpdateItemCommand TABLE_NAME key updateExpression None
                 expressionAttributeValues "ALL_NEW") ;;
    doc <- lift (JSON_stringify
                   (VObj [("success", VBool true);
                          ("clientId", parseInt (the_string clientId));
                          ("orderId", parseInt (the_string orderId));
                          ("installments", installments)])) ;;
    Ret {| statusCode := 200; headers := json_headers; body_json := doc |}.

Definition handler (event : APIGatewayEvent) (env : Env)
  : prog APIGatewayProxyResult :=
  try_catch (try_block event env) (fun err => Ret internal_error).

End Handler.

End updateInstallments.

(** ** getOrdersByClient.ts (the second module of the source file of
    updateInstallments.ts) *)

Module getOrdersByClient.

Definition VALID_PAYMENT_METHODS : list string :=
  ["credit_card"; "debit_card"; "pix"].

Definition includes (l : list string) (s : string) : bool :=
  existsb (String.eqb s) l.

Section Handler.

Variable TABLE_NAME : string.

(** The [try] block of the handler. *)
Definition try_block (event : APIGatewayEvent)
  : prog APIGatewayProxyResult :=
  let clientId := path_param event "clientId" in
  if negb (truthy clientId)
  then Ret (bad_request "clientId é obrigatório no path")
  else
    let clientIdNumber := parseInt (the_string clientId) in
    if isNaN clientIdNumber
    then Ret (bad_request "clientId deve ser um número válido")
    else
      let paymentMethod := query_param event "paymentMethod" in
      if truthy paymentMethod
         && negb (includes VALID_PAYMENT_METHODS (the_string paymentMethod))
      then Ret (bad_request
                  ("paymentMethod inválido. Valores aceitos: "
                   ++ String.concat ", " VALID_PAYMENT_METHODS))
      else
        let keyConditionExpression := EQ "ClientId" ":clientId" in
        let expressionAttributeValues :=
          (":clientId", clientIdNumber)
          :: (if truthy paymentMethod
              then [(":paymentMethod", VStr (the_string paymentMethod))]
              else []) in
        let filterExpression :=
          if truthy paymentMethod
          then Some (EQ "PaymentMethod" ":paymentMethod")
          else None in
        values <- lift (marshall expressionAttributeValues) ;;
        result <- send (QueryCommand TABLE_NAME keyConditionExpression
                          filterExpression values) ;;
        let orders :=
          map unmarshall (match Items result with
                          | Some l => l
                          | None => []
                          end) in
        doc <- lift (JSON_stringify
                       (VObj ([("success", VBool true);
                               ("clientId", clientIdNumber)]
                              ++ (if truthy paymentMethod
                                  then [("paymentMethod",
                                         VStr (the_string paymentMethod))]
                                  else [])
                              ++ [("count", VNum (Z.of_nat (List.length orders)));
                                  ("orders", VArr orders)]))) ;;
        Ret {| statusCode := 200; headers := json_headers;
               body_json := doc |}.

Definition handler (event : APIGatewayEvent)
  : prog APIGatewayProxyResult :=
  try_catch (try_block event) (fun err => Ret internal_error).

End Handler.

End getOrdersByClient.

(** ** Notions used to state the properties *)

(** The table of the stack with the given items. *)
Definition deployed (its : list Item) : DynamoDB :=
  {| props := AwsApigatewayLambdaCdkStack.table; items := its |}.

(** A path or query parameter is missing when it is absent or empty. *)
Definition missing (o : option string) : Prop :=
  o = None \/ o = Some EmptyString.

(** A handler either answers at once, with a client error or the generic
    server error, or sends one command and then answers: the generic
    server error when the command fails, and otherwise the success status
    [ok] or the generic server error. *)
Definition one_shot (ok : Z) (p : prog APIGatewayProxyResult) : Prop :=
  (exists r, p = Ret r /\ (statusCode r = 400 \/ r = internal_error))
  \/ (exists c k,
         p = Send c k
         /\ (forall e, k (inl e) = Ret internal_error)
         /\ (forall o, exists r,
                k (inr o) = Ret r
                /\ (statusCode r = ok \/ r = internal_error))).

(** Against the client, the program answers (no error escapes it), sends
    at most one command, and answers [internal_error] whenever the
    client fails the command, whatever the failure is. *)
Definition fails_closed {St : Type} (client : Client St) (s : St)
  (p : prog APIGatewayProxyResult) : Prop :=
  exists r s' tr,
    run client p s = (inr r, s', tr)
    /\ (List.length tr <= 1)%nat
    /\ (forall c e, In c tr -> fst (client c s) = inl e -> r = internal_error).

(** The command addresses the partition key of the table: the item or the
    key carries it, or the key condition is on it. *)
Definition addresses_partition_key (tp : TableProps) (c : Command) : bool :=
  match c with
  | PutItemCommand _ it => key_attr_ok (partitionKey tp) it
  | UpdateItemCommand _ key _ _ _ _ => key_attr_ok (partitionKey tp) key
  | QueryCommand _ (EQ p _) _ _ => String.eqb p (name (partitionKey tp))
  end.

(** The primary key of the order [(clientId, orderId)] in a table. *)
Definition order_key (tp : TableProps) (clientId orderId : Z) : Item :=
  [(name (partitionKey tp), AV_N clientId);
   (name (sortKey tp), AV_N orderId)].

(** "An update must fail when the key is absent", on a table: an
    UpdateInstallments request for an order that is not stored is not
    answered with success and leaves the stored items as they were. *)
Definition update_fails_when_key_absent (tp : TableProps) : Prop :=
  forall JSON_parse env event its clientId orderId r db' tr,
    parseInt (the_string (path_param event "clientId")) = VNum clientId ->
    parseInt (the_string (path_param event "orderId")) = VNum orderId ->
    (forall it, In it its ->
                same_key tp (order_key tp clientId orderId) it = false) ->
    run dynamodb_send
      (updateInstallments.handler JSON_parse (tableName tp) event env)
      {| props := tp; items := its |}
    = (inr r, db', tr) ->
    statusCode r <> 200 /\ items db' = its.

(** Every attribute but [Installments] and [UpdatedAt] reads the same in
    the two items. *)
Definition same_but_installments (old new : Item) : Prop :=
  forall a, a <> "Installments" -> a <> "UpdatedAt" ->
            assoc a new = assoc a old.

(** ** Sample requests *)

(** A stand-in for [JSON.parse] that knows the listed texts. *)
Definition parse_table (docs : list (string * value)) (text : string)
  : result value :=
  match assoc text docs with
  | Some v => inr v
  | None => inl (Error "SyntaxError" "Unexpected token in JSON")
  end.

Definition quote (s : string) : string :=
  String (ascii_of_nat 34) s ++ String (ascii_of_nat 34) EmptyString.

Definition scenario_text : string :=
  "{" ++ quote "clientId" ++ ":1," ++ quote "items" ++ ":[{"
  ++ quote "productId" ++ ":10," ++ quote "quantity" ++ ":2}],"
  ++ quote "paymentMethod" ++ ":" ++ quote "pix" ++ ","
  ++ quote "installments" ++ ":3}".

Definition scenario_payload : value :=
  VObj [("clientId", VNum 1);
        ("items", VArr [VObj [("productId", VNum 10); ("quantity", VNum 2)]]);
        ("paymentMethod", VStr "pix");
        ("installments", VNum 3)].

Definition other_text : string :=
  "{" ++ quote "clientId" ++ ":1," ++ quote "items" ++ ":[{"
  ++ quote "productId" ++ ":77," ++ quote "quantity" ++ ":1}],"
  ++ quote "paymentMethod" ++ ":" ++ quote "credit_card" ++ ","
  ++ quote "installments" ++ ":12}".

Definition other_payload : value :=
  VObj [("clientId", VNum 1);
        ("items", VArr [VObj [("productId", VNum 77); ("quantity", VNum 1)]]);
        ("paymentMethod", VStr "credit_card");
        ("installments", VNum 12)].

Definition six_text : string := "{" ++ quote "installments" ++ ":6}".

Definition six_payload : value := VObj [("installments", VNum 6)].

Definition sample_parse : string -> result value :=
  parse_table
    [(scenario_text, scenario_payload);
     (other_text, other_payload);
     (six_text, six_payload);
     ("{}", VObj []);
     ("null", VNull)].

(** 2023-11-14T22:13:20.000Z, and a random draw of one half. *)
Definition sample_env : Env :=
  {| Date_now := 1700000000000;
     Math_random := 1 # 2;
     new_Date_toISOString := "2023-11-14T22:13:20.000Z" |}.

Definition create_event (text : string) : APIGatewayEvent :=
  {| pathParameters := None; queryStringParameters := None;
     body := Some text |}.

Definition update_event (clientId orderId text : string) : APIGatewayEvent :=
  {| pathParameters := Some [("clientId", clientId); ("orderId", orderId)];
     queryStringParameters := None;
     body := Some text |}.

Definition list_event (clientId : string) (paymentMethod : option string)
  : APIGatewayEvent :=
  {| pathParameters := Some [("clientId", clientId)];
     queryStringParameters :=
       match paymentMethod with
       | Some pm => Some [("paymentMethod", pm)]
       | None => None
       end;
     body := None |}.

(** The order CreateOrder stores for [scenario_payload] under
    [sample_env]. *)
Definition scenario_item : Item :=
  [("ClientId", AV_N 1);
   ("OrderId", AV_N 1700000000000500);
   ("Items", AV_L [AV_M [("productId", AV_N 10); ("quantity", AV_N 2)]]);
   ("PaymentMethod", AV_S "pix");
   ("Installments", AV_N 3);
   ("CreatedAt", AV_S "2023-11-14T22:13:20.000Z")].

(** ** JSON values with safe numbers *)

(** The values [JSON.parse] can give (no [undefined], no [NaN], no
    BigInt) whose numbers are all safe integers. *)
Fixpoint json_safe (v : value) : bool :=
  match v with
  | VUndefined | VNaN | VBigInt _ => false
  | VNull | VBool _ | VStr _ => true
  | VNum n => (MIN_SAFE_INTEGER <=? n) && (n <=? MAX_SAFE_INTEGER)
  | VArr elems => forallb json_safe elems
  | VObj props => forallb (fun kv => json_safe (snd kv)) props
  end.

(** ** The items after an update *)

(** The items of a table after [UpdateItem] has applied [sets] under
    [key]: the stored item of that key is changed in place, or a new item
    made of the key and the attributes set is added. *)
Definition updated_items (tp : TableProps) (key : Item)
  (sets : list (string * AttributeValue)) (l : list Item) : list Item :=
  match find (same_key tp key) l with
  | Some _ =>
      map (fun it => if same_key tp key it then apply_sets sets it else it) l
  | None => l ++ [apply_sets sets key]
  end.

(** One millisecond after [sample_env], with a random draw of one
    quarter. *)
Definition later_env : Env :=
  {| Date_now := 1700000000001;
     Math_random := 1 # 4;
     new_Date_toISOString := "2023-11-14T22:13:20.001Z" |}.

(** * Properties *)

(** ** Basic facts *)

Example parseInt_digits : parseInt "12" = VNum 12.
Proof. reflexivity. Qed.

Example parseInt_prefix : parseInt " 12abc" = VNum 12.
Proof. reflexivity. Qed.

Example parseInt_letters : parseInt "abc" = VNaN.
Proof. reflexivity. Qed.

Example parseInt_hex : parseInt "-0x1f" = VNum (-31).
Proof. reflexivity. Qed.

Example sample_parse_scenario : sample_parse scenario_text = inr scenario_payload.
Proof. reflexivity. Qed.

Lemma truthy_false_iff o : truthy o = false <-> missing o.
Proof.
  unfold truthy, missing. destruct o as [s0|].
  - destruct (String.eqb_spec s0 EmptyString); simpl; split; intros H;
      try discriminate; subst; auto.
    destruct H as [H|H]; [discriminate | congruence].
  - split; auto.
Qed.

Lemma truthy_Some s : s <> EmptyString -> truthy (Some s) = true.
Proof.
  intros H. unfold truthy.
  destruct (String.eqb_spec s EmptyString); [contradiction | reflexivity].
Qed.

Lemma includes_true_iff pm :
  getOrdersByClient.includes getOrdersByClient.VALID_PAYMENT_METHODS pm = true
  <-> In pm getOrdersByClient.VALID_PAYMENT_METHODS.
Proof.
  unfold getOrdersByClient.includes, getOrdersByClient.VALID_PAYMENT_METHODS.
  simpl.
  destruct (String.eqb_spec pm "credit_card"), (String.eqb_spec pm "debit_card"),
    (String.eqb_spec pm "pix"); simpl; split; intros H; subst; auto;
    try discriminate.
  destruct H as [?|[?|[?|[]]]]; congruence.
Qed.

Lemma includes_false_iff pm :
  getOrdersByClient.includes getOrdersByClient.VALID_PAYMENT_METHODS pm = false
  <-> ~ In pm getOrdersByClient.VALID_PAYMENT_METHODS.
Proof.
  rewrite <- includes_true_iff.
  destruct (getOrdersByClient.includes _ pm); split; intros H;
    try discriminate; try reflexivity; try (exfalso; apply H; reflexivity).
Qed.

Lemma filter_none {A : Type} (f : A -> bool) (l : list A) :
  (forall x, In x l -> f x = false) -> filter f l = [].
Proof.
  induction l as [|a l IH]; intros H; simpl; [reflexivity|].
  rewrite (H a (or_introl eq_refl)). apply IH.
  intros x Hx. apply H. right. exact Hx.
Qed.

Lemma existsb_none {A : Type} (f : A -> bool) (l : list A) :
  (forall x, In x l -> f x = false) -> existsb f l = false.
Proof.
  induction l as [|a l IH]; intros H; simpl; [reflexivity|].
  rewrite (H a (or_introl eq_refl)). apply IH.
  intros x Hx. apply H. right. exact Hx.
Qed.

Lemma find_none {A : Type} (f : A -> bool) (l : list A) :
  (forall x, In x l -> f x = false) -> find f l = None.
Proof.
  induction l as [|a l IH]; intros H; simpl; [reflexivity|].
  rewrite (H a (or_introl eq_refl)). apply IH.
  intros x Hx. apply H. right. exact Hx.
Qed.

Lemma gtb_max_false n :
  n <= MAX_SAFE_INTEGER -> (n >? MAX_SAFE_INTEGER) = false.
Proof. intros H. rewrite Z.gtb_ltb. apply Z.ltb_ge. exact H. Qed.

Lemma ltb_min_false n :
  MIN_SAFE_INTEGER <= n -> (n <? MIN_SAFE_INTEGER) = false.
Proof. intros H. apply Z.ltb_ge. exact H. Qed.

(** Discharges the range tests of [convertToAttr] and [convertToNative]
    on the numbers known to be safe integers. *)
Ltac safe_nums :=
  repeat match goal with
    | |- context [?n >? MAX_SAFE_INTEGER] =>
        rewrite (gtb_max_false n)
          by (unfold MAX_SAFE_INTEGER, MIN_SAFE_INTEGER in *; lia)
    | |- context [?n <? MIN_SAFE_INTEGER] =>
        rewrite (ltb_min_false n)
          by (unfold MAX_SAFE_INTEGER, MIN_SAFE_INTEGER in *; lia)
    end.

Lemma marshall_nil : marshall [] = inr [].
Proof. reflexivity. Qed.

Lemma marshall_cons k v r :
  marshall ((k, v) :: r)
  = match convertToAttr v with
    | inl e => inl e
    | inr a =>
        match marshall r with
        | inl e => inl e
        | inr m => inr ((k, a) :: m)
        end
    end.
Proof.
  unfold marshall. cbn [convertToAttr].
  destruct (convertToAttr v) as [e|a]; [reflexivity|].
  match goal with
  | |- context [match ?f r with inl _ => _ | inr m => inr (AV_M m) end] =>
      destruct (f r)
  end; reflexivity.
Qed.

(** The identifier lies in the thousand values that start at the
    millisecond. *)
Lemma generateOrderId_range env :
  (0 <= Math_random env)%Q -> (Math_random env < 1)%Q ->
  Date_now env * 1000 <= createOrder.generateOrderId env
  <= Date_now env * 1000 + 999.
Proof.
  intros H0 H1. unfold createOrder.generateOrderId.
  set (x := (Math_random env * 1000)%Q).
  assert (Hlo : 0 <= Qfloor x).
  { change 0 with (Qfloor 0). apply Qfloor_resp_le.
    unfold x. apply Qmult_le_0_compat; [assumption | discriminate]. }
  assert (Hhi : Qfloor x < 1000).
  { rewrite Zlt_Qlt. apply Qle_lt_trans with x; [apply Qfloor_le|].
    unfold x. change (inject_Z 1000) with (1 * 1000)%Q.
    apply Qmult_lt_compat_r; [reflexivity | assumption]. }
  lia.
Qed.

Lemma In_insert_sorted tp x y l :
  In y (insert_sorted tp x l) -> y = x \/ In y l.
Proof.
  induction l as [|z l IH]; simpl.
  - intros [<-|[]]. left. reflexivity.
  - destruct (sort_key_leb tp x z); simpl.
    + intros [<-|H]; auto.
    + intros [<-|H]; auto. destruct (IH H); auto.
Qed.

Lemma In_sort_by_sort_key tp y l :
  In y (sort_by_sort_key tp l) -> In y l.
Proof.
  induction l as [|x l IH]; simpl; [auto|].
  intros H. destruct (In_insert_sorted _ _ _ _ H) as [->|H']; auto.
Qed.

(** ** The shape of the handlers *)

Ltac lift_step :=
  match goal with
  | |- context [lift ?x] => destruct x eqn:?; cbn [lift bind try_catch]
  end.

Ltac ret_case := left; eexists; split; [reflexivity | auto].

Ltac send_case :=
  right; eexists; eexists; split; [reflexivity | split];
  [ intros; reflexivity
  | intros; cbn [lift bind try_catch]; repeat lift_step;
    (eexists; split; [reflexivity | auto]) ].

Lemma createOrder_one_shot JSON_parse TABLE_NAME event env :
  one_shot 201 (createOrder.handler JSON_parse TABLE_NAME event env).
Proof.
  unfold createOrder.handler, createOrder.try_block, send.
  repeat (lift_step; try solve [ret_case]).
  all: send_case.
Qed.

Lemma updateInstallments_one_shot JSON_parse TABLE_NAME event env :
  one_shot 200 (updateInstallments.handler JSON_parse TABLE_NAME event env).
Proof.
  unfold updateInstallments.handler, updateInstallments.try_block, send.
  destruct (negb (truthy (path_param event "clientId"))
            || negb (truthy (path_param event "orderId"))) eqn:Hv.
  - cbn [try_catch]. ret_case.
  - repeat (lift_step; try solve [ret_case]).
    all: send_case.
Qed.

Lemma getOrdersByClient_one_shot TABLE_NAME event :
  one_shot 200 (getOrdersByClient.handler TABLE_NAME event).
Proof.
  unfold getOrdersByClient.handler, getOrdersByClient.try_block, send.
  destruct (negb (truthy (path_param event "clientId"))); [ret_case|].
  destruct (isNaN _); [ret_case|].
  destruct (truthy (query_param event "paymentMethod") && _); [ret_case|].
  repeat (lift_step; try solve [ret_case]).
  all: send_case.
Qed.

Lemma one_shot_sends_at_most_1 ok p : one_shot ok p -> sends_at_most 1 p.
Proof.
  intros [(r & -> & _) | (c & k & -> & Hfail & Hok)].
  - constructor.
  - constructor. intros [e|o].
    + rewrite Hfail. constructor.
    + destruct (Hok o) as (r & -> & _). constructor.
Qed.

(** What a run of a one-shot program looks like, against any client. *)
Lemma one_shot_run ok p :
  one_shot ok p -> ok <> 400 ->
  forall (St : Type) (client : Client St) (s : St),
  exists r s' tr,
    run client p s = (inr r, s', tr)
    /\ (statusCode r = 400 -> tr = [] /\ s' = s)
    /\ (List.length tr <= 1)%nat
    /\ (forall c e, In c tr -> fst (client c s) = inl e -> r = internal_error).
Proof.
  intros [(r & -> & Hr) | (c & k & -> & Hfail & Hok)] Hne St client s.
  - exists r, s, []. simpl. repeat split; auto. intros ? ? [].
  - simpl. destruct (client c s) as [[e|o] s1] eqn:Hc.
    + rewrite Hfail. simpl. exists internal_error, s1, [c].
      repeat split; auto; simpl; try discriminate.
    + destruct (Hok o) as (r & -> & Hr). simpl. exists r, s1, [c].
      repeat split; auto.
      * destruct Hr as [Hr | ->]; [congruence | discriminate].
      * destruct Hr as [Hr | ->]; [congruence | discriminate].
      * intros c' e [<- | []] He. rewrite Hc in He. discriminate.
Qed.

(** ** Validation and failures, against any store client *)

(** C7. A request that fails validation is answered with the client error
    and nothing is sent to the store: UpdateInstallments when [clientId]
    or [orderId] is missing from the path, ListOrdersByClient when
    [clientId] is missing or is not a number, or when the [paymentMethod]
    filter is given and is none of the three literals.  And whenever one
    of the two operations answers 400, no command was sent and the store
    is left as it was. *)
Theorem C7_validation_failures_never_reach_the_store :
  forall (St : Type) (client : Client St) (s : St)
         JSON_parse TABLE_NAME event env,
    ((missing (path_param event "clientId")
      \/ missing (path_param event "orderId")) ->
     run client (updateInstallments.handler JSON_parse TABLE_NAME event env) s
     = (inr (bad_request "clientId e orderId são obrigatórios no path"), s, []))
    /\ ((missing (path_param event "clientId")
         \/ parseInt (the_string (path_param event "clientId")) = VNaN
         \/ (exists pm, query_param event "paymentMethod" = Some pm
                        /\ pm <> EmptyString
                        /\ ~ In pm getOrdersByClient.VALID_PAYMENT_METHODS)) ->
        exists msg,
          run client (getOrdersByClient.handler TABLE_NAME event) s
          = (inr (bad_request msg), s, []))
    /\ (forall r s' tr,
           run client
             (updateInstallments.handler JSON_parse TABLE_NAME event env) s
           = (inr r, s', tr) ->
           statusCode r = 400 -> tr = [] /\ s' = s)
    /\ (forall r s' tr,
           run client (getOrdersByClient.handler TABLE_NAME event) s
           = (inr r, s', tr) ->
           statusCode r = 400 -> tr = [] /\ s' = s).
Proof.
  intros St client s JSON_parse TABLE_NAME event env.
  split; [|split; [|split]].
  - intros H. unfold updateInstallments.handler, updateInstallments.try_block.
    assert (Hv : negb (truthy (path_param event "clientId"))
                 || negb (truthy (path_param event "orderId")) = true).
    { destruct H as [H|H]; apply (proj2 (truthy_false_iff _)) in H; rewrite H;
        [reflexivity | apply orb_true_r]. }
    rewrite Hv. reflexivity.
  - intros H. unfold getOrdersByClient.handler, getOrdersByClient.try_block.
    destruct (truthy (path_param event "clientId")) eqn:Hc; cbn [negb].
    2:{ eexists. reflexivity. }
    destruct (isNaN (parseInt (the_string (path_param event "clientId"))))
      eqn:Hn.
    { eexists. reflexivity. }
    destruct H as [H | [H | (pm & Hq & Hne & Hin)]].
    + apply (proj2 (truthy_false_iff _)) in H. congruence.
    + rewrite H in Hn. discriminate.
    + rewrite Hq. cbn [the_string]. rewrite (truthy_Some pm Hne).
      rewrite (proj2 (includes_false_iff pm) Hin). cbn [negb andb try_catch].
      eexists. reflexivity.
  - intros r s' tr Hrun H400.
    destruct (one_shot_run 200 _
                (updateInstallments_one_shot JSON_parse TABLE_NAME event env)
                ltac:(discriminate) St client s)
      as (r0 & s0 & tr0 & Hrun0 & H & _).
    rewrite Hrun in Hrun0. injection Hrun0 as <- <- <-. auto.
  - intros r s' tr Hrun H400.
    destruct (one_shot_run 200 _ (getOrdersByClient_one_shot TABLE_NAME event)
                ltac:(discriminate) St client s)
      as (r0 & s0 & tr0 & Hrun0 & H & _).
    rewrite Hrun in Hrun0. injection Hrun0 as <- <- <-. auto.
Qed.

(** C7 on a request for [/orders/abc] without [orderId], against the
    table that holds the scenario order. *)
Lemma C7_witness :
  run dynamodb_send
    (updateInstallments.handler sample_parse
       AwsApigatewayLambdaCdkStack.TABLE_NAME (list_event "abc" None)
       sample_env)
    (deployed [scenario_item])
  = (inr (bad_request "clientId e orderId são obrigatórios no path"),
     deployed [scenario_item], [])
  /\ exists msg,
      run dynamodb_send
        (getOrdersByClient.handler AwsApigatewayLambdaCdkStack.TABLE_NAME
           (list_event "abc" None))
        (deployed [scenario_item])
      = (inr (bad_request msg), deployed [scenario_item], []).
Proof.
  destruct (C7_validation_failures_never_reach_the_store
              DynamoDB dynamodb_send (deployed [scenario_item]) sample_parse
              AwsApigatewayLambdaCdkStack.TABLE_NAME (list_event "abc" None)
              sample_env) as (Hupdate & Hlist & _ & _).
  split.
  - apply Hupdate. right. left. reflexivity.
  - apply Hlist. right. left. reflexivity.
Defined.

(** A [catch] that answers [d] turns every error of the block into [d]
    and leaves the other outcomes, the store and the trace as they are. *)
Lemma run_try_catch {St A : Type} (client : Client St) (p : prog A) (d : A)
  (s : St) :
  run client (try_catch p (fun _ => Ret d)) s
  = let '(r, s', tr) := run client p s in
    (match r with inl _ => inr d | inr a => inr a end, s', tr).
Proof.
  revert s. induction p as [a|e|c k IH]; intros s; simpl; try reflexivity.
  destruct (client c s) as [r s1]. rewrite IH.
  destruct (run client (k r) s1) as [[r' s2] tr]. reflexivity.
Qed.

(** C10. In each of the three operations, against any store client: the
    operation always answers (no error escapes it), it sends at most one
    command (so nothing is retried), and when the client fails that
    command it answers the one generic response, status 500 with body
    [{success: false, error: "Erro interno do servidor"}], whatever the
    failure was.  Any error thrown inside the [try] block, by the store
    or by the code of the block, is answered with that same response. *)
Theorem C10_failures_map_to_generic_500 :
  forall (St : Type) (client : Client St) (s : St)
         JSON_parse TABLE_NAME event env,
    fails_closed client s (createOrder.handler JSON_parse TABLE_NAME event env)
    /\ fails_closed client s
         (updateInstallments.handler JSON_parse TABLE_NAME event env)
    /\ fails_closed client s (getOrdersByClient.handler TABLE_NAME event)
    /\ (forall e s' tr,
           run client
             (createOrder.try_block JSON_parse TABLE_NAME event env) s
           = (inl e, s', tr) ->
           run client (createOrder.handler JSON_parse TABLE_NAME event env) s
           = (inr internal_error, s', tr))
    /\ (forall e s' tr,
           run client
             (updateInstallments.try_block JSON_parse TABLE_NAME event env) s
           = (inl e, s', tr) ->
           run client
             (updateInstallments.handler JSON_parse TABLE_NAME event env) s
           = (inr internal_error, s', tr))
    /\ (forall e s' tr,
           run client (getOrdersByClient.try_block TABLE_NAME event) s
           = (inl e, s', tr) ->
           run client (getOrdersByClient.handler TABLE_NAME event) s
           = (inr internal_error, s', tr))
    /\ internal_error
       = {| statusCode := 500;
            headers := [("Content-Type", "application/json")];
            body_json := VObj [("success", VBool false);
                               ("error", VStr "Erro interno do servidor")] |}.
Proof.
  intros. unfold fails_closed.
  split; [|split; [|split; [|split; [|split; [|split]]]]].
  - destruct (one_shot_run 201 _
                (createOrder_one_shot JSON_parse TABLE_NAME event env)
                ltac:(discriminate) St client s)
      as (r & s' & tr & H1 & _ & H3 & H4).
    eauto 6.
  - destruct (one_shot_run 200 _
                (updateInstallments_one_shot JSON_parse TABLE_NAME event env)
                ltac:(discriminate) St client s)
      as (r & s' & tr & H1 & _ & H3 & H4).
    eauto 6.
  - destruct (one_shot_run 200 _ (getOrdersByClient_one_shot TABLE_NAME event)
                ltac:(discriminate) St client s)
      as (r & s' & tr & H1 & _ & H3 & H4).
    eauto 6.
  - intros e s' tr H. unfold createOrder.handler.
    rewrite run_try_catch, H. reflexivity.
  - intros e s' tr H. unfold updateInstallments.handler.
    rewrite run_try_catch, H. reflexivity.
  - intros e s' tr H. unfold getOrdersByClient.handler.
    rewrite run_try_catch, H. reflexivity.
  - reflexivity.
Qed.

(** C10 on a store client that refuses every command with a throttling
    error: the valid scenario request is answered with the generic
    response after its one command. *)
Lemma C10_witness :
  run (fun (_ : Command) (n : nat) =>
         (inl (Error "ProvisionedThroughputExceededException" "throttled"),
          S n))
    (createOrder.handler sample_parse AwsApigatewayLambdaCdkStack.TABLE_NAME
       (create_event scenario_text) sample_env) O
  = (inr internal_error, 1%nat,
     [PutItemCommand "apigateway-lambda-db" scenario_item]).
Proof.
  destruct (C10_failures_map_to_generic_500 nat
              (fun (_ : Command) (n : nat) =>
                 (inl (Error "ProvisionedThroughputExceededException"
                         "throttled") : result Output, S n))
              O sample_parse AwsApigatewayLambdaCdkStack.TABLE_NAME
              (create_event scenario_text) sample_env)
    as (_ & _ & _ & Hcreate & _).
  apply (Hcreate (Error "ProvisionedThroughputExceededException" "throttled")).
  vm_compute. reflexivity.
Defined.

(** A body that is not JSON: the generic response, and nothing sent. *)
Example unparsable_body_is_500 :
  run dynamodb_send
    (createOrder.handler sample_parse AwsApigatewayLambdaCdkStack.TABLE_NAME
       (create_event "{oops") sample_env) (deployed [])
  = (inr internal_error, deployed [], []).
Proof. vm_compute. reflexivity. Qed.

(** UpdateInstallments with both identifiers present and one of them not
    a number: the generic server error, against any store client, and
    nothing sent. *)
Lemma updateInstallments_unparseable_id_is_500 (St : Type)
  (client : Client St) (s : St) JSON_parse TABLE_NAME event env :
  ~ missing (path_param event "clientId") ->
  ~ missing (path_param event "orderId") ->
  parseInt (the_string (path_param event "clientId")) = VNaN
  \/ parseInt (the_string (path_param event "orderId")) = VNaN ->
  run client (updateInstallments.handler JSON_parse TABLE_NAME event env) s
  = (inr internal_error, s, []).
Proof.
  intros Hc Ho Hnan.
  unfold updateInstallments.handler, updateInstallments.try_block.
  destruct (truthy (path_param event "clientId")) eqn:Htc.
  2:{ apply truthy_false_iff in Htc. contradiction. }
  destruct (truthy (path_param event "orderId")) eqn:Hto.
  2:{ apply truthy_false_iff in Hto. contradiction. }
  cbn [negb orb].
  destruct (JSON_parse _) as [e|payload]; [reflexivity|].
  cbn [lift bind try_catch].
  destruct (get_prop payload "installments") as [e|v]; [reflexivity|].
  cbn [lift bind try_catch]. rewrite !marshall_cons.
  destruct Hnan as [-> | ->]; cbn [convertToAttr]; [reflexivity|].
  destruct (convertToAttr _); reflexivity.
Qed.

(** C6. UpdateInstallments on the path [/orders/abc/1]: both identifiers
    are present, [clientId] is not a number.  Whatever the body, the
    environment and the store, the answer is the generic server error
    (500), not a client error; nothing is sent to the store. *)
Theorem C6_unparseable_path_id_is_a_server_error :
  forall (St : Type) (client : Client St) (s : St) JSON_parse TABLE_NAME env b,
    run client
      (updateInstallments.handler JSON_parse TABLE_NAME
         {| pathParameters := Some [("clientId", "abc"); ("orderId", "1")];
            queryStringParameters := None;
            body := b |} env) s
    = (inr internal_error, s, [])
    /\ statusCode internal_error = 500.
Proof.
  intros. split; [|reflexivity].
  unfold updateInstallments.handler, updateInstallments.try_block.
  cbn [path_param pathParameters assoc String.eqb Ascii.eqb Bool.eqb truthy
         negb orb the_string body].
  destruct (JSON_parse _) as [e|payload]; [reflexivity|].
  cbn [lift bind try_catch].
  destruct (get_prop payload "installments") as [e|v]; reflexivity.
Qed.

(** The sibling handler answers the same path identifier with 400. *)
Example list_rejects_non_numeric_clientId :
  run dynamodb_send
    (getOrdersByClient.handler AwsApigatewayLambdaCdkStack.TABLE_NAME
       (list_event "abc" None))
    (deployed [])
  = (inr (bad_request "clientId deve ser um número válido"), deployed [], []).
Proof. reflexivity. Qed.

(** ** Create and list on the table of the stack *)

(** C3. On the table of the stack, when client 1 has no stored order:
    CreateOrder with the scenario payload answers 201 with
    [{success: true, orderId, clientId: 1}], where [orderId] is the
    generated number, and a ListOrdersByClient for client 1 that follows
    answers 200 with exactly one order, whose fields are those of the
    payload, the generated [orderId] and the creation time. *)
Theorem C3_create_then_list_round_trip :
  forall JSON_parse env text its pp qs,
    JSON_parse text = inr scenario_payload ->
    (forall it, In it its -> attr_is "ClientId" (AV_N 1) it = false) ->
    0 <= Date_now env <= 9007199254739 ->
    (0 <= Math_random env)%Q -> (Math_random env < 1)%Q ->
    let orderId := createOrder.generateOrderId env in
    let created :=
      run dynamodb_send
        (createOrder.handler JSON_parse AwsApigatewayLambdaCdkStack.TABLE_NAME
           {| pathParameters := pp; queryStringParameters := qs;
              body := Some text |} env)
        (deployed its) in
    fst (fst created)
    = inr {| statusCode := 201; headers := json_headers;
             body_json := VObj [("success", VBool true);
                                ("orderId", VNum orderId);
                                ("clientId", VNum 1)] |}
    /\ fst (fst (run dynamodb_send
                   (getOrdersByClient.handler
                      AwsApigatewayLambdaCdkStack.TABLE_NAME
                      (list_event "1" None))
                   (snd (fst created))))
       = inr {| statusCode := 200; headers := json_headers;
                body_json :=
                  VObj [("success", VBool true);
                        ("clientId", VNum 1);
                        ("count", VNum 1);
                        ("orders",
                         VArr [VObj [("ClientId", VNum 1);
                                     ("OrderId", VNum orderId);
                                     ("Items",
                                      VArr [VObj [("productId", VNum 10);
                                                  ("quantity", VNum 2)]]);
                                     ("PaymentMethod", VStr "pix");
                                     ("Installments", VNum 3);
                                     ("CreatedAt",
                                      VStr (new_Date_toISOString env))]])] |}.
Proof.
  intros JSON_parse env text its pp qs Hparse Hnone Hnow Hr0 Hr1 orderId created.
  pose proof (generateOrderId_range env Hr0 Hr1) as Hid.
  fold orderId in Hid.
  assert (Hfresh : forall k,
             existsb (same_key AwsApigatewayLambdaCdkStack.table
                        (("ClientId", AV_N 1) :: ("OrderId", AV_N orderId) :: k))
               its = false).
  { intros k. apply existsb_none. intros it Hit. unfold same_key. simpl.
    rewrite (Hnone it Hit). reflexivity. }
  subst created. unfold createOrder.handler, createOrder.try_block,
    getOrdersByClient.handler, getOrdersByClient.try_block.
  cbn [body]. rewrite Hparse.
  fold orderId. clearbody orderId.
  change (parseInt (the_string (path_param _ "clientId"))) with (VNum 1).
  unfold scenario_payload, marshall.
  repeat (cbn -[Z.gtb Z.ltb same_key existsb filter]; safe_nums).
  unfold store_item. rewrite Hfresh.
  cbn -[Z.gtb Z.ltb same_key existsb filter].
  split; [reflexivity|].
  rewrite filter_app, (filter_none _ its Hnone).
  repeat (cbn -[Z.gtb Z.ltb]; safe_nums).
  reflexivity.
Qed.

(** C3 on the empty table, at [sample_env]. *)
Lemma C3_witness :
  fst (fst (run dynamodb_send
              (createOrder.handler sample_parse
                 AwsApigatewayLambdaCdkStack.TABLE_NAME
                 (create_event scenario_text) sample_env)
              (deployed [])))
  = inr {| statusCode := 201; headers := json_headers;
           body_json := VObj [("success", VBool true);
                              ("orderId", VNum 1700000000000500);
                              ("clientId", VNum 1)] |}
  /\ fst (fst (run dynamodb_send
                 (getOrdersByClient.handler
                    AwsApigatewayLambdaCdkStack.TABLE_NAME
                    (list_event "1" None))
                 (deployed [scenario_item])))
     = inr {| statusCode := 200; headers := json_headers;
              body_json :=
                VObj [("success", VBool true);
                      ("clientId", VNum 1);
                      ("count", VNum 1);
                      ("orders", VArr [unmarshall scenario_item])] |}.
Proof.
  refine (C3_create_then_list_round_trip sample_parse sample_env scenario_text
            [] None None eq_refl _ _ _ _).
  - intros it [].
  - simpl. lia.
  - unfold Qle. simpl. lia.
  - reflexivity.
Defined.

(** C9. On the table of the stack, a ListOrdersByClient whose [clientId]
    is a safe integer answers 200 with [count: 0] and no order when the
    client has no stored order and no filter is given, and when a filter
    among the three literals is given and no stored order of the client
    has that payment method; the filter is then echoed. *)
Theorem C9_empty_result_is_success :
  forall event its c n,
    path_param event "clientId" = Some c -> c <> EmptyString ->
    parseInt c = VNum n -> MIN_SAFE_INTEGER <= n <= MAX_SAFE_INTEGER ->
    let run_list :=
      run dynamodb_send
        (getOrdersByClient.handler AwsApigatewayLambdaCdkStack.TABLE_NAME event)
        (deployed its) in
    (truthy (query_param event "paymentMethod") = false ->
     (forall it, In it its -> attr_is "ClientId" (AV_N n) it = false) ->
     run_list
     = (inr {| statusCode := 200; headers := json_headers;
               body_json := VObj [("success", VBool true);
                                  ("clientId", VNum n);
                                  ("count", VNum 0);
                                  ("orders", VArr [])] |},
        deployed its,
        [QueryCommand "apigateway-lambda-db" (EQ "ClientId" ":clientId") None
           [(":clientId", AV_N n)]]))
    /\ (forall pm,
           query_param event "paymentMethod" = Some pm ->
           In pm getOrdersByClient.VALID_PAYMENT_METHODS ->
           (forall it, In it its -> attr_is "ClientId" (AV_N n) it = true ->
                       attr_is "PaymentMethod" (AV_S pm) it = false) ->
           run_list
           = (inr {| statusCode := 200; headers := json_headers;
                     body_json := VObj [("success", VBool true);
                                        ("clientId", VNum n);
                                        ("paymentMethod", VStr pm);
                                        ("count", VNum 0);
                                        ("orders", VArr [])] |},
              deployed its,
              [QueryCommand "apigateway-lambda-db" (EQ "ClientId" ":clientId")
                 (Some (EQ "PaymentMethod" ":paymentMethod"))
                 [(":clientId", AV_N n); (":paymentMethod", AV_S pm)]])).
Proof.
  intros event its c n Hc Hne Hn Hsafe run_list. subst run_list.
  unfold getOrdersByClient.handler, getOrdersByClient.try_block.
  rewrite Hc. cbn [the_string]. rewrite (truthy_Some c Hne).
  rewrite Hn. cbn [negb isNaN].
  split.
  - intros Hpm Hnone. rewrite Hpm. cbn [andb]. unfold marshall.
    repeat (cbn -[Z.gtb Z.ltb filter sort_by_sort_key]; safe_nums).
    rewrite (filter_none _ its Hnone). reflexivity.
  - intros pm Hq Hin Hnone. rewrite Hq. cbn [the_string].
    assert (Hpm : truthy (Some pm) = true).
    { apply truthy_Some. intros ->.
      destruct Hin as [?|[?|[?|[]]]]; discriminate. }
    rewrite Hpm. rewrite (proj2 (includes_true_iff pm) Hin).
    cbn [negb andb]. unfold marshall.
    repeat (cbn -[Z.gtb Z.ltb filter sort_by_sort_key]; safe_nums).
    rewrite filter_none; [reflexivity|].
    intros it Hit. apply In_sort_by_sort_key in Hit.
    apply filter_In in Hit. destruct Hit as [Hit Hcl].
    apply Hnone; assumption.
Qed.

(** C9 on the scenario of the specification: the only stored order of
    client 1 was paid by pix and the filter asks for credit_card. *)
Lemma C9_witness :
  run dynamodb_send
    (getOrdersByClient.handler AwsApigatewayLambdaCdkStack.TABLE_NAME
       (list_event "1" (Some "credit_card")))
    (deployed [scenario_item])
  = (inr {| statusCode := 200; headers := json_headers;
            body_json := VObj [("success", VBool true);
                               ("clientId", VNum 1);
                               ("paymentMethod", VStr "credit_card");
                               ("count", VNum 0);
                               ("orders", VArr [])] |},
     deployed [scenario_item],
     [QueryCommand "apigateway-lambda-db" (EQ "ClientId" ":clientId")
        (Some (EQ "PaymentMethod" ":paymentMethod"))
        [(":clientId", AV_N 1); (":paymentMethod", AV_S "credit_card")]]).
Proof.
  refine (proj2 (C9_empty_result_is_success
                   (list_event "1" (Some "credit_card")) [scenario_item]
                   "1" 1 eq_refl _ eq_refl _) "credit_card" eq_refl _ _).
  - discriminate.
  - unfold MIN_SAFE_INTEGER, MAX_SAFE_INTEGER. lia.
  - left. reflexivity.
  - intros it [<-|[]] _. reflexivity.
Defined.

(** A client without any stored order, no filter. *)
Example list_of_unknown_client :
  run dynamodb_send
    (getOrdersByClient.handler AwsApigatewayLambdaCdkStack.TABLE_NAME
       (list_event "2" None))
    (deployed [scenario_item])
  = (inr {| statusCode := 200; headers := json_headers;
            body_json := VObj [("success", VBool true);
                               ("clientId", VNum 2);
                               ("count", VNum 0);
                               ("orders", VArr [])] |},
     deployed [scenario_item],
     [QueryCommand "apigateway-lambda-db" (EQ "ClientId" ":clientId") None
        [(":clientId", AV_N 2)]]).
Proof. vm_compute. reflexivity. Qed.

(** ** UpdateInstallments and the key of the table *)

(** On the table of the stack every UpdateInstallments request is answered
    without success and the table is left as it was: the key the handler
    sends names [ClientID], the table declares [ClientId]. *)
Lemma updateInstallments_rejected_on_declared_table JSON_parse event env its :
  exists r tr,
    run dynamodb_send
      (updateInstallments.handler JSON_parse
         AwsApigatewayLambdaCdkStack.TABLE_NAME event env)
      (deployed its)
    = (inr r, deployed its, tr)
    /\ statusCode r <> 200.
Proof.
  unfold updateInstallments.handler, updateInstallments.try_block.
  destruct (negb (truthy (path_param event "clientId"))
            || negb (truthy (path_param event "orderId"))).
  { eexists; eexists; split; [reflexivity | discriminate]. }
  destruct (JSON_parse _) as [e|payload]; cbn [lift bind try_catch].
  { eexists; eexists; split; [reflexivity | discriminate]. }
  destruct (get_prop payload "installments") as [e|inst];
    cbn [lift bind try_catch].
  { eexists; eexists; split; [reflexivity | discriminate]. }
  rewrite !marshall_cons, marshall_nil.
  destruct (convertToAttr (parseInt _)) as [e|a]; cbn [lift bind try_catch].
  { eexists; eexists; split; [reflexivity | discriminate]. }
  destruct (convertToAttr (parseInt _)) as [e|b]; cbn [lift bind try_catch].
  { eexists; eexists; split; [reflexivity | discriminate]. }
  destruct (convertToAttr inst) as [e|i]; cbn [lift bind try_catch].
  { eexists; eexists; split; [reflexivity | discriminate]. }
  cbn. eexists; eexists; split; [reflexivity | discriminate].
Qed.

(** C1. The scenario on the table of the stack, at [sample_env]: the
    order of client 1 is created (201) and stored; the UpdateInstallments
    request for that order with [{installments: 6}] is answered with the
    generic server error, the command it sent carries the key attribute
    [ClientID], and the table is unchanged; the list that follows still
    shows [Installments: 3].  On the table of the other revision, whose
    partition key is [ClientID], the order cannot be created. *)
Theorem C1_update_after_create_is_rejected :
  let tn := AwsApigatewayLambdaCdkStack.TABLE_NAME in
  let created :=
    run dynamodb_send
      (createOrder.handler sample_parse tn (create_event scenario_text)
         sample_env)
      (deployed []) in
  let db1 := snd (fst created) in
  fst (fst created)
  = inr {| statusCode := 201; headers := json_headers;
           body_json := VObj [("success", VBool true);
                              ("orderId", VNum 1700000000000500);
                              ("clientId", VNum 1)] |}
  /\ db1 = deployed [scenario_item]
  /\ run dynamodb_send
       (updateInstallments.handler sample_parse tn
          (update_event "1" "1700000000000500" six_text) sample_env)
       db1
     = (inr internal_error, db1,
        [UpdateItemCommand "apigateway-lambda-db"
           [("ClientID", AV_N 1); ("OrderId", AV_N 1700000000000500)]
           [SET "Installments" ":installments"; SET "UpdatedAt" ":updatedAt"]
           None
           [(":installments", AV_N 6);
            (":updatedAt", AV_S "2023-11-14T22:13:20.000Z")]
           "ALL_NEW"])
  /\ fst (fst (run dynamodb_send
                 (getOrdersByClient.handler tn (list_event "1" None)) db1))
     = inr {| statusCode := 200; headers := json_headers;
              body_json :=
                VObj [("success", VBool true);
                      ("clientId", VNum 1);
                      ("count", VNum 1);
                      ("orders", VArr [unmarshall scenario_item])] |}
  /\ assoc "Installments" scenario_item = Some (AV_N 3)
  /\ run dynamodb_send
       (createOrder.handler sample_parse part_000.TABLE_NAME
          (create_event scenario_text) sample_env)
       {| props := part_000.table; items := [] |}
     = (inr internal_error, {| props := part_000.table; items := [] |},
        [PutItemCommand "apigateway-lambda-db" scenario_item]).
Proof. vm_compute. repeat split; reflexivity. Qed.

(** C4. The commands the three handlers send in the scenario:
    CreateOrder's item and ListOrdersByClient's key condition name the
    partition key [ClientId], UpdateInstallments' key names [ClientID].
    The table of the stack is addressed by the first and the last and not
    by the update; the table of the other revision by the update only;
    and no table is addressed by the three. *)
Theorem C4_update_key_misses_the_partition_key :
  let put :=
    PutItemCommand "apigateway-lambda-db" scenario_item in
  let update :=
    UpdateItemCommand "apigateway-lambda-db"
      [("ClientID", AV_N 1); ("OrderId", AV_N 1700000000000500)]
      [SET "Installments" ":installments"; SET "UpdatedAt" ":updatedAt"]
      None
      [(":installments", AV_N 6);
       (":updatedAt", AV_S "2023-11-14T22:13:20.000Z")]
      "ALL_NEW" in
  let query :=
    QueryCommand "apigateway-lambda-db" (EQ "ClientId" ":clientId") None
      [(":clientId", AV_N 1)] in
  let tn := AwsApigatewayLambdaCdkStack.TABLE_NAME in
  snd (run dynamodb_send
         (createOrder.handler sample_parse tn (create_event scenario_text)
            sample_env) (deployed []))
  = [put]
  /\ snd (run dynamodb_send
            (updateInstallments.handler sample_parse tn
               (update_event "1" "1700000000000500" six_text) sample_env)
            (deployed [scenario_item]))
     = [update]
  /\ snd (run dynamodb_send
            (getOrdersByClient.handler tn (list_event "1" None))
            (deployed [scenario_item]))
     = [query]
  /\ map (addresses_partition_key AwsApigatewayLambdaCdkStack.table)
       [put; update; query]
     = [true; false; true]
  /\ map (addresses_partition_key part_000.table) [put; update; query]
     = [false; true; false]
  /\ forall tp : TableProps,
      forallb (addresses_partition_key tp) [put; update; query] = false.
Proof.
  cbv zeta. repeat split; try (vm_compute; reflexivity).
  intros tp. cbn [forallb addresses_partition_key].
  destruct (String.eqb_spec "ClientId" (name (partitionKey tp))) as [E|E].
  - apply andb_false_intro2, andb_false_intro1.
    unfold key_attr_ok. rewrite <- E. reflexivity.
  - apply andb_false_intro2, andb_false_intro2. reflexivity.
Qed.

(** C2, as the claim states it, fails on the table whose key is the key
    the handler sends: the update of client 1, order 5, on the empty
    table is answered 200 and a record is created. *)
Lemma C2_counterexample : ~ update_fails_when_key_absent part_000.table.
Proof.
  intros H.
  destruct (H sample_parse sample_env (update_event "1" "5" six_text) [] 1 5
              _ _ _ eq_refl eq_refl (fun it (Hin : In it []) => match Hin with end)
              eq_refl) as [Hstatus _].
  apply Hstatus. reflexivity.
Qed.

(** C2, amended.  UpdateInstallments sends one [UpdateItem] command
    without a condition expression, and nothing before it.  On the table
    keyed by [ClientID] and [OrderId], the names its key uses, a request
    with identifiers and [installments] that are safe integers, for an
    order that is not stored, is answered 200 and adds a record that
    holds the key, [Installments] and [UpdatedAt] only; the stored items
    are kept. *)
Theorem C2_update_of_absent_key_creates_partial_record :
  forall JSON_parse env event its c o cn on payload n,
    path_param event "clientId" = Some c -> c <> EmptyString ->
    path_param event "orderId" = Some o -> o <> EmptyString ->
    parseInt c = VNum cn -> MIN_SAFE_INTEGER <= cn <= MAX_SAFE_INTEGER ->
    parseInt o = VNum on -> MIN_SAFE_INTEGER <= on <= MAX_SAFE_INTEGER ->
    JSON_parse (if truthy (body event) then the_string (body event) else "{}")
    = inr payload ->
    get_prop payload "installments" = inr (VNum n) ->
    MIN_SAFE_INTEGER <= n <= MAX_SAFE_INTEGER ->
    (forall it, In it its ->
                same_key part_000.table (order_key part_000.table cn on) it
                = false) ->
    run dynamodb_send
      (updateInstallments.handler JSON_parse part_000.TABLE_NAME event env)
      {| props := part_000.table; items := its |}
    = (inr {| statusCode := 200; headers := json_headers;
              body_json := VObj [("success", VBool true);
                                 ("clientId", VNum cn);
                                 ("orderId", VNum on);
                                 ("installments", VNum n)] |},
       {| props := part_000.table;
          items := its ++ [[("ClientID", AV_N cn);
                            ("OrderId", AV_N on);
                            ("Installments", AV_N n);
                            ("UpdatedAt", AV_S (new_Date_toISOString env))]] |},
       [UpdateItemCommand "apigateway-lambda-db"
          [("ClientID", AV_N cn); ("OrderId", AV_N on)]
          [SET "Installments" ":installments"; SET "UpdatedAt" ":updatedAt"]
          None
          [(":installments", AV_N n);
           (":updatedAt", AV_S (new_Date_toISOString env))]
          "ALL_NEW"]).
Proof.
  intros JSON_parse env event its c o cn on payload n
    Hc Hcne Ho Hone Hcn Hcs Hon Hos Hparse Hinst Hns Habsent.
  change (order_key part_000.table cn on)
    with [("ClientID", AV_N cn); ("OrderId", AV_N on)] in Habsent.
  unfold updateInstallments.handler, updateInstallments.try_block.
  rewrite Hc, Ho. cbn [the_string].
  rewrite (truthy_Some c Hcne), (truthy_Some o Hone).
  cbn [negb orb]. rewrite Hparse. cbn [lift bind]. rewrite Hinst, Hcn, Hon.
  cbn [lift bind]. unfold marshall.
  repeat (cbn -[Z.gtb Z.ltb same_key find]; safe_nums).
  rewrite (find_none _ its Habsent).
  reflexivity.
Qed.

(** The amended C2 on the empty table: client 1, order 5, six
    installments. *)
Lemma C2_witness :
  run dynamodb_send
    (updateInstallments.handler sample_parse part_000.TABLE_NAME
       (update_event "1" "5" six_text) sample_env)
    {| props := part_000.table; items := [] |}
  = (inr {| statusCode := 200; headers := json_headers;
            body_json := VObj [("success", VBool true);
                               ("clientId", VNum 1);
                               ("orderId", VNum 5);
                               ("installments", VNum 6)] |},
     {| props := part_000.table;
        items := [[("ClientID", AV_N 1);
                   ("OrderId", AV_N 5);
                   ("Installments", AV_N 6);
                   ("UpdatedAt", AV_S "2023-11-14T22:13:20.000Z")]] |},
     [UpdateItemCommand "apigateway-lambda-db"
        [("ClientID", AV_N 1); ("OrderId", AV_N 5)]
        [SET "Installments" ":installments"; SET "UpdatedAt" ":updatedAt"]
        None
        [(":installments", AV_N 6);
         (":updatedAt", AV_S "2023-11-14T22:13:20.000Z")]
        "ALL_NEW"]).
Proof.
  refine (C2_update_of_absent_key_creates_partial_record sample_parse
            sample_env (update_event "1" "5" six_text) [] "1" "5" 1 5
            six_payload 6 eq_refl _ eq_refl _ eq_refl _ eq_refl _ eq_refl
            eq_refl _ _).
  - discriminate.
  - discriminate.
  - unfold MIN_SAFE_INTEGER, MAX_SAFE_INTEGER. lia.
  - unfold MIN_SAFE_INTEGER, MAX_SAFE_INTEGER. lia.
  - unfold MIN_SAFE_INTEGER, MAX_SAFE_INTEGER. lia.
  - intros it [].
Defined.

(** ** Order identifiers and the stored orders *)

(** Two invocations that read the same millisecond and draw the same
    thousandth get the same identifier. *)
Lemma generateOrderId_same_draw env1 env2 :
  Date_now env1 = Date_now env2 ->
  Qfloor (Math_random env1 * 1000) = Qfloor (Math_random env2 * 1000) ->
  createOrder.generateOrderId env1 = createOrder.generateOrderId env2.
Proof. unfold createOrder.generateOrderId. intros -> ->. reflexivity. Qed.

(** More than a thousand invocations within one millisecond cannot get
    pairwise distinct identifiers. *)
Lemma generateOrderId_collision_forced (envs : list Env) (now : Z) :
  (forall env, In env envs ->
               Date_now env = now
               /\ (0 <= Math_random env)%Q /\ (Math_random env < 1)%Q) ->
  (1000 < List.length envs)%nat ->
  ~ NoDup (map createOrder.generateOrderId envs).
Proof.
  intros Henv Hlen Hnd.
  set (slots := map (fun i => now * 1000 + Z.of_nat i) (seq 0 1000)).
  assert (Hincl : incl (map createOrder.generateOrderId envs) slots).
  { intros id Hid. apply in_map_iff in Hid. destruct Hid as (env & <- & Hin).
    destruct (Henv env Hin) as (Hnow & H0 & H1).
    pose proof (generateOrderId_range env H0 H1) as Hr. rewrite Hnow in Hr.
    unfold slots. apply in_map_iff.
    exists (Z.to_nat (createOrder.generateOrderId env - now * 1000)).
    split; [lia|]. apply in_seq. lia. }
  pose proof (NoDup_incl_length Hnd Hincl) as Hle.
  unfold slots in Hle. rewrite !length_map, length_seq in Hle. lia.
Qed.

Lemma JSON_stringify_created id cv doc :
  JSON_stringify
    (VObj [("success", VBool true); ("orderId", VNum id); ("clientId", cv)])
  = inr doc ->
  exists rest,
    doc = VObj (("success", VBool true) :: ("orderId", VNum id) :: rest).
Proof.
  cbn [JSON_stringify].
  destruct cv as [ | | b | | n | n | str | arr | obj ]; cbn [JSON_stringify];
    try (intros H; injection H as <-; eauto; fail);
    try discriminate.
  - match goal with
    | |- context [match ?f arr with inl _ => _ | inr l => inr (VArr l) end] =>
        destruct (f arr)
    end; [discriminate|].
    intros H; injection H as <-; eauto.
  - match goal with
    | |- context [match ?f obj with inl _ => _ | inr m => inr (VObj m) end] =>
        destruct (f obj)
    end; [discriminate|].
    intros H; injection H as <-; eauto.
Qed.

(** Every 201 answer of CreateOrder carries the generated identifier, a
    number, as [orderId]. *)
Lemma createOrder_returns_numeric_orderId (St : Type) (client : Client St)
  (s : St) JSON_parse TABLE_NAME event env r s' tr :
  run client (createOrder.handler JSON_parse TABLE_NAME event env) s
  = (inr r, s', tr) ->
  statusCode r = 201 ->
  exists rest,
    body_json r
    = VObj (("success", VBool true)
            :: ("orderId", VNum (createOrder.generateOrderId env)) :: rest).
Proof.
  unfold createOrder.handler, createOrder.try_block, send.
  repeat (lift_step;
          try solve [cbn [run]; intros H; injection H as <- _ _; discriminate]).
  all: cbn [bind try_catch run]; destruct (client _ s) as [[e0|o] s1];
    cbn [lift bind try_catch run];
    intros H; injection H as <- _ _; try discriminate.
  intros _. cbn [body_json].
  eapply JSON_stringify_created; eassumption.
Qed.

(** C5. Two CreateOrder calls that read the same millisecond and the same
    random draw ([sample_env] both), for two different payloads: both are
    answered 201 and both return the order identifier
    1700000000000500. *)
Theorem C5_same_millisecond_same_draw_same_orderId :
  let tn := AwsApigatewayLambdaCdkStack.TABLE_NAME in
  let first :=
    run dynamodb_send
      (createOrder.handler sample_parse tn (create_event scenario_text)
         sample_env)
      (deployed []) in
  let second :=
    run dynamodb_send
      (createOrder.handler sample_parse tn (create_event other_text)
         sample_env)
      (snd (fst first)) in
  let created :=
    {| statusCode := 201; headers := json_headers;
       body_json := VObj [("success", VBool true);
                          ("orderId", VNum 1700000000000500);
                          ("clientId", VNum 1)] |} in
  fst (fst first) = inr created /\ fst (fst second) = inr created.
Proof. vm_compute. split; reflexivity. Qed.

(** C8. Two CreateOrder calls for client 1 that read the same millisecond
    and the same random draw ([sample_env] both): after the first the
    table holds the order (1, 1700000000000500), paid by pix, with
    product 10; the second call, answered 201, replaces it, and the order
    of that key is now paid by credit_card, with product 77 and twelve
    installments. *)
Theorem C8_colliding_create_replaces_the_order :
  let tn := AwsApigatewayLambdaCdkStack.TABLE_NAME in
  let first :=
    run dynamodb_send
      (createOrder.handler sample_parse tn (create_event scenario_text)
         sample_env)
      (deployed []) in
  let second :=
    run dynamodb_send
      (createOrder.handler sample_parse tn (create_event other_text)
         sample_env)
      (snd (fst first)) in
  items (snd (fst first)) = [scenario_item]
  /\ items (snd (fst second))
     = [[("ClientId", AV_N 1);
         ("OrderId", AV_N 1700000000000500);
         ("Items", AV_L [AV_M [("productId", AV_N 77); ("quantity", AV_N 1)]]);
         ("PaymentMethod", AV_S "credit_card");
         ("Installments", AV_N 12);
         ("CreatedAt", AV_S "2023-11-14T22:13:20.000Z")]]
  /\ statusCode
       (match fst (fst second) with inr r => r | inl _ => internal_error end)
     = 201.
Proof. vm_compute. repeat split; reflexivity. Qed.

(** *** What the operations leave unchanged *)

Lemma assoc_set_attr_other k k' v it :
  k' <> k -> assoc k' (set_attr k v it) = assoc k' it.
Proof.
  intros Hne. induction it as [|[k0 v0] it IH]; simpl.
  - destruct (String.eqb_spec k' k); [contradiction | reflexivity].
  - destruct (String.eqb_spec k k0) as [->|Hk]; simpl.
    + destruct (String.eqb_spec k' k0); [contradiction | reflexivity].
    + destruct (String.eqb_spec k' k0); [reflexivity | exact IH].
Qed.

Lemma same_but_installments_refl it : same_but_installments it it.
Proof. intros a _ _. reflexivity. Qed.

Lemma Forall2_same_but_installments_refl l :
  Forall2 same_but_installments l l.
Proof.
  induction l; constructor; auto using same_but_installments_refl.
Qed.

(** An [UpdateItem] with the update expression of the handler keeps every
    stored item in place and changes nothing in it but [Installments] and
    [UpdatedAt]. *)
Lemma UpdateItem_frame key cond values ret db oi ou :
  let db' :=
    snd (UpdateItem key [SET "Installments" oi; SET "UpdatedAt" ou]
           cond values ret db) in
  props db' = props db
  /\ exists kept added : list Item,
      items db' = (kept ++ added)%list
      /\ Forall2 same_but_installments (items db) kept.
Proof.
  assert (Hsame : props db = props db
                  /\ exists kept added : list Item,
                      items db = (kept ++ added)%list
                      /\ Forall2 same_but_installments (items db) kept).
  { split; [reflexivity|]. exists (items db), []. rewrite app_nil_r.
    split; [reflexivity | apply Forall2_same_but_installments_refl]. }
  unfold UpdateItem. cbv zeta.
  repeat match goal with
    | |- context [if ?b then _ else _] =>
        destruct b; [exact Hsame|]
    end.
  cbn [resolve_actions].
  destruct (assoc oi values) as [vi|]; [|exact Hsame].
  destruct (assoc ou values) as [vu|]; [|exact Hsame].
  destruct (negb (check_condition cond _)); [exact Hsame|].
  cbn [snd props items].
  split; [reflexivity|].
  destruct (find (same_key (props db) key) (items db)).
  - eexists; exists []. rewrite app_nil_r. split; [reflexivity|].
    clear Hsame.
    induction (items db) as [|it l IH]; simpl; constructor; [|exact IH].
    destruct (same_key (props db) key it);
      [|apply same_but_installments_refl].
    intros a Ha Hb. unfold apply_sets. simpl.
    rewrite !assoc_set_attr_other by assumption. reflexivity.
  - eexists; eexists. split; [reflexivity|].
    apply Forall2_same_but_installments_refl.
Qed.

Lemma Query_reads_only kc flt values db : snd (Query kc flt values db) = db.
Proof.
  unfold Query. destruct kc as [kpath kop]. cbv zeta.
  repeat match goal with
    | |- context [if ?b then _ else _] => destruct b; try reflexivity
    | |- context [match ?o with Some _ => _ | None => _ end] =>
        destruct o; try reflexivity
    | |- context [let 'EQ _ _ := ?c in _] => destruct c
    end.
Qed.

Lemma run_state_one_send {St A : Type} (client : Client St) c
  (k : result Output -> prog A) s :
  (forall r, exists a, k r = Ret a) ->
  snd (fst (run client (Send c k) s)) = snd (client c s).
Proof.
  intros Hk. simpl. destruct (client c s) as [r s1].
  destruct (Hk r) as [a ->]. reflexivity.
Qed.

Ltac no_send := intros Hp; discriminate Hp.

Ltac sent :=
  intros Hp; injection Hp as <- <-;
  split;
  [ repeat eexists
  | intros [?|?]; cbn [lift bind try_catch]; repeat lift_step;
    eexists; reflexivity ].

(** The one command UpdateInstallments sends: an [UpdateItem] that sets
    [Installments] and [UpdatedAt], without a condition expression. *)
Lemma updateInstallments_command JSON_parse TABLE_NAME event env c k :
  updateInstallments.handler JSON_parse TABLE_NAME event env = Send c k ->
  (exists key values,
      c = UpdateItemCommand TABLE_NAME key
            [SET "Installments" ":installments"; SET "UpdatedAt" ":updatedAt"]
            None values "ALL_NEW")
  /\ forall r, exists resp, k r = Ret resp.
Proof.
  unfold updateInstallments.handler, updateInstallments.try_block, send.
  destruct (negb (truthy (path_param event "clientId"))
            || negb (truthy (path_param event "orderId"))).
  { cbn [try_catch]. no_send. }
  repeat (lift_step; try solve [no_send]).
  all: cbn [bind try_catch]; sent.
Qed.

(** The one command ListOrdersByClient sends is a [Query]. *)
Lemma getOrdersByClient_command TABLE_NAME event c k :
  getOrdersByClient.handler TABLE_NAME event = Send c k ->
  (exists kc flt values, c = QueryCommand TABLE_NAME kc flt values)
  /\ forall r, exists resp, k r = Ret resp.
Proof.
  unfold getOrdersByClient.handler, getOrdersByClient.try_block, send.
  destruct (negb (truthy (path_param event "clientId")));
    [cbn [try_catch]; no_send|].
  destruct (isNaN _); [cbn [try_catch]; no_send|].
  destruct (truthy (query_param event "paymentMethod") && _);
    [cbn [try_catch]; no_send|].
  repeat (lift_step; try solve [no_send]).
  all: cbn [bind try_catch]; sent.
Qed.

Lemma marshall_order_item cv id rest m :
  marshall (("ClientId", cv) :: ("OrderId", VNum id) :: rest) = inr m ->
  exists a m', m = ("ClientId", a) :: ("OrderId", AV_N id) :: m'.
Proof.
  rewrite !marshall_cons. cbn [convertToAttr].
  destruct (convertToAttr cv) as [e|a]; [discriminate|].
  destruct (id >? MAX_SAFE_INTEGER); [discriminate|].
  destruct (id <? MIN_SAFE_INTEGER); [discriminate|].
  destruct (marshall rest) as [e|m']; [discriminate|].
  intros H. injection H as <-. eauto.
Qed.

(** The one command CreateOrder sends: a [PutItem] of an item that
    carries [ClientId] and the generated [OrderId]. *)
Lemma createOrder_command JSON_parse TABLE_NAME event env c k :
  createOrder.handler JSON_parse TABLE_NAME event env = Send c k ->
  (exists a m,
      c = PutItemCommand TABLE_NAME
            (("ClientId", a)
             :: ("OrderId", AV_N (createOrder.generateOrderId env)) :: m))
  /\ forall r, exists resp, k r = Ret resp.
Proof.
  unfold createOrder.handler, createOrder.try_block, send.
  repeat (lift_step; try solve [no_send]).
  all: cbn [bind try_catch].
  all: match goal with
       | H : marshall _ = inr _ |- _ =>
           destruct (marshall_order_item _ _ _ _ H) as (a & m' & ->)
       end.
  all: sent.
Qed.

(** UpdateInstallments, on any table: every stored item is kept in place
    and nothing changes in it but [Installments] and [UpdatedAt]. *)
Lemma updateInstallments_frame JSON_parse TABLE_NAME event env db :
  let db' :=
    snd (fst (run dynamodb_send
                (updateInstallments.handler JSON_parse TABLE_NAME event env)
                db)) in
  props db' = props db
  /\ exists kept added : list Item,
      items db' = (kept ++ added)%list
      /\ Forall2 same_but_installments (items db) kept.
Proof.
  assert (Hsame : props db = props db
                  /\ exists kept added : list Item,
                      items db = (kept ++ added)%list
                      /\ Forall2 same_but_installments (items db) kept).
  { split; [reflexivity|]. exists (items db), []. rewrite app_nil_r.
    split; [reflexivity | apply Forall2_same_but_installments_refl]. }
  destruct (updateInstallments_one_shot JSON_parse TABLE_NAME event env)
    as [(r & Hp & _) | (c & k & Hp & _ & _)].
  - rewrite Hp. exact Hsame.
  - destruct (updateInstallments_command _ _ _ _ _ _ Hp)
      as ((key & values & ->) & Hk).
    rewrite Hp. cbv zeta. rewrite (run_state_one_send _ _ _ _ Hk).
    unfold dynamodb_send.
    destruct (String.eqb TABLE_NAME (tableName (props db)));
      [apply UpdateItem_frame | exact Hsame].
Qed.

(** ListOrdersByClient leaves the table as it was. *)
Lemma getOrdersByClient_reads_only TABLE_NAME event db :
  snd (fst (run dynamodb_send (getOrdersByClient.handler TABLE_NAME event) db))
  = db.
Proof.
  destruct (getOrdersByClient_one_shot TABLE_NAME event)
    as [(r & Hp & _) | (c & k & Hp & _ & _)].
  - rewrite Hp. reflexivity.
  - destruct (getOrdersByClient_command _ _ _ _ Hp)
      as ((kc & flt & values & ->) & Hk).
    rewrite Hp, (run_state_one_send _ _ _ _ Hk).
    unfold dynamodb_send.
    destruct (String.eqb TABLE_NAME (tableName (props db)));
      [apply Query_reads_only | reflexivity].
Qed.

(** CreateOrder on the table of the stack, when no stored item has the
    generated [OrderId]: the stored items are kept as they are. *)
Lemma createOrder_keeps_stored_orders JSON_parse TABLE_NAME event env its :
  (forall it, In it its ->
              attr_is "OrderId" (AV_N (createOrder.generateOrderId env)) it
              = false) ->
  exists added : list Item,
    snd (fst (run dynamodb_send
                (createOrder.handler JSON_parse TABLE_NAME event env)
                (deployed its)))
    = deployed (its ++ added).
Proof.
  intros Hfresh.
  destruct (createOrder_one_shot JSON_parse TABLE_NAME event env)
    as [(r & Hp & _) | (c & k & Hp & _ & _)].
  - rewrite Hp. exists []. rewrite app_nil_r. reflexivity.
  - destruct (createOrder_command _ _ _ _ _ _ Hp) as ((a & m & ->) & Hk).
    rewrite Hp, (run_state_one_send _ _ _ _ Hk).
    unfold dynamodb_send.
    destruct (String.eqb TABLE_NAME (tableName (props (deployed its))));
      [|exists []; rewrite app_nil_r; reflexivity].
    unfold PutItem. cbv zeta.
    destruct (negb _); [exists []; rewrite app_nil_r; reflexivity|].
    cbn [snd props deployed items]. unfold store_item.
    rewrite existsb_none.
    + eexists. reflexivity.
    + intros it Hit. unfold same_key. simpl.
      rewrite (Hfresh it Hit). apply andb_false_r.
Qed.

(** * Further properties of the handlers *)

(** ** Values that survive the store *)

Lemma value_ind_nested (P : value -> Prop) :
  P VUndefined -> P VNull -> (forall b, P (VBool b)) -> P VNaN ->
  (forall n, P (VNum n)) -> (forall n, P (VBigInt n)) ->
  (forall s, P (VStr s)) ->
  (forall elems, Forall P elems -> P (VArr elems)) ->
  (forall props, Forall (fun kv => P (snd kv)) props -> P (VObj props)) ->
  forall v, P v.
Proof.
  intros HU HN HB HNaN HNum HBig HS HA HO.
  fix IH 1.
  intros [ | | b | | n | n | s | elems | props ];
    [ exact HU | exact HN | apply HB | exact HNaN | apply HNum | apply HBig
    | apply HS | | ].
  - apply HA. induction elems as [|x r IHr]; constructor; [apply IH | exact IHr].
  - apply HO. induction props as [|[k x] r IHr]; constructor;
      [apply IH | exact IHr].
Qed.

Lemma json_safe_num n :
  json_safe (VNum n) = true <-> MIN_SAFE_INTEGER <= n <= MAX_SAFE_INTEGER.
Proof. simpl. rewrite andb_true_iff, !Z.leb_le. reflexivity. Qed.

(** [marshall] accepts a JSON value with safe numbers and [unmarshall]
    gives it back. *)
Lemma convertToAttr_json_safe v :
  json_safe v = true ->
  exists a, convertToAttr v = inr a /\ convertToNative a = v.
Proof.
  induction v as [ | | b | | n | n | s | elems IH | props IH ]
    using value_ind_nested; intros Hs; try discriminate;
    try (eexists; split; reflexivity).
  - apply json_safe_num in Hs. exists (AV_N n).
    cbn [convertToAttr convertToNative]. safe_nums. cbn [orb]. auto.
  - cbn [json_safe] in Hs. cbn [convertToAttr].
    match goal with
    | |- context [match ?f elems with inl _ => _ | inr l => inr (AV_L l) end] =>
        set (go := f);
        assert (Hgo : exists l, go elems = inr l /\ map convertToNative l = elems)
    end.
    { induction IH as [|x r Hx Hr IHr]; [exists []; auto|].
      cbn [forallb] in Hs. apply andb_true_iff in Hs. destruct Hs as [Hsx Hsr].
      destruct (Hx Hsx) as (a & Ha & Hb). destruct (IHr Hsr) as (l & Hl & Hm).
      exists (a :: l). unfold go in *. cbn. rewrite Ha.
      fold go in Hl |- *. rewrite Hl. cbn. rewrite Hb, Hm. auto. }
    destruct Hgo as (l & -> & Hm). exists (AV_L l).
    cbn [convertToNative]. rewrite Hm. auto.
  - cbn [json_safe] in Hs. cbn [convertToAttr].
    match goal with
    | |- context [match ?f props with inl _ => _ | inr m => inr (AV_M m) end] =>
        set (go := f);
        assert (Hgo : exists m, go props = inr m
                                /\ convertToNative (AV_M m) = VObj props)
    end.
    { induction IH as [|[k x] r Hx Hr IHr]; [exists []; auto|].
      cbn [forallb snd] in Hs. apply andb_true_iff in Hs.
      destruct Hs as [Hsx Hsr]. cbn [snd] in Hx.
      destruct (Hx Hsx) as (a & Ha & Hb). destruct (IHr Hsr) as (m & Hm & Hn).
      exists ((k, a) :: m). unfold go in *. cbn. rewrite Ha.
      fold go in Hm |- *. rewrite Hm. cbn. rewrite Hb.
      cbn in Hn. injection Hn as ->. auto. }
    destruct Hgo as (m & -> & Hm). exists (AV_M m). auto.
Qed.

(** [JSON.stringify] keeps such a value as it is. *)
Lemma JSON_stringify_json_safe v :
  json_safe v = true -> JSON_stringify v = inr v.
Proof.
  induction v as [ | | b | | n | n | s | elems IH | props IH ]
    using value_ind_nested; intros Hs; try discriminate; try reflexivity.
  - cbn [json_safe] in Hs. cbn [JSON_stringify].
    match goal with
    | |- context [match ?f elems with inl _ => _ | inr l => inr (VArr l) end] =>
        set (go := f); assert (Hgo : go elems = inr elems)
    end.
    { induction IH as [|x r Hx Hr IHr]; [reflexivity|].
      cbn [forallb] in Hs. apply andb_true_iff in Hs. destruct Hs as [Hsx Hsr].
      unfold go in *. cbn. rewrite (Hx Hsx).
      fold go in IHr |- *. rewrite (IHr Hsr). reflexivity. }
    rewrite Hgo. reflexivity.
  - cbn [json_safe] in Hs. cbn [JSON_stringify].
    match goal with
    | |- context [match ?f props with inl _ => _ | inr m => inr (VObj m) end] =>
        set (go := f); assert (Hgo : go props = inr props)
    end.
    { induction IH as [|[k x] r Hx Hr IHr]; [reflexivity|].
      cbn [forallb snd] in Hs. apply andb_true_iff in Hs.
      destruct Hs as [Hsx Hsr]. cbn [snd] in Hx.
      unfold go in *. cbn. rewrite (Hx Hsx).
      fold go in IHr |- *. rewrite (IHr Hsr).
      destruct x; try reflexivity; discriminate. }
    rewrite Hgo. reflexivity.
Qed.

(** ** What the handlers send and answer, against any store client *)

Lemma run_one_send {St A : Type} (client : Client St) c
  (k : result Output -> prog A) s :
  (forall r, exists a, k r = Ret a) ->
  exists a,
    run client (Send c k) s = (inr a, snd (client c s), [c])
    /\ k (fst (client c s)) = Ret a.
Proof.
  intros Hk. simpl. destruct (client c s) as [r s1].
  destruct (Hk r) as [a Ha]. rewrite Ha. exists a. auto.
Qed.

Lemma marshall_names props m :
  marshall props = inr m -> map fst m = map fst props.
Proof.
  revert m. induction props as [|[k v] r IH]; intros m.
  - rewrite marshall_nil. intros H. injection H as <-. reflexivity.
  - rewrite marshall_cons. destruct (convertToAttr v) as [e|a]; [discriminate|].
    destruct (marshall r) as [e|m']; [discriminate|].
    intros H. injection H as <-. cbn. rewrite (IH m' eq_refl). reflexivity.
Qed.

Lemma marshall_assoc props m k v :
  marshall props = inr m -> assoc k props = Some v ->
  exists a, assoc k m = Some a /\ convertToAttr v = inr a.
Proof.
  revert m. induction props as [|[k0 v0] r IH]; intros m; [discriminate|].
  rewrite marshall_cons. destruct (convertToAttr v0) as [e|a0] eqn:Ha0;
    [discriminate|].
  destruct (marshall r) as [e|m']; [discriminate|].
  intros H. injection H as <-. cbn [assoc].
  destruct (String.eqb k k0).
  - intros Hv. injection Hv as <-. eauto.
  - apply IH. reflexivity.
Qed.

(** The programs of the three handlers end after their one command. *)
Lemma one_shot_cases ok p :
  one_shot ok p ->
  (exists r, p = Ret r)
  \/ exists c k, p = Send c k /\ forall x, exists r, k x = Ret r.
Proof.
  intros [(r & -> & _) | (c & k & -> & Hfail & Hok)]; [eauto|].
  right. exists c, k. split; [reflexivity|].
  intros [e|o]; [rewrite Hfail; eauto|].
  destruct (Hok o) as (r & -> & _). eauto.
Qed.

(** X1. Whatever the store client, the only command CreateOrder sends is
    a [PutItem] on the table of its environment, of an item with exactly
    the six attributes [ClientId], [OrderId], [Items], [PaymentMethod],
    [Installments] and [CreatedAt] (no [UpdatedAt]), where [OrderId] is
    the generated identifier and [CreatedAt] the time read. *)
Theorem createOrder_puts_six_attributes :
  forall (St : Type) (client : Client St) (s : St)
         JSON_parse TABLE_NAME event env c,
    In c (snd (run client
                 (createOrder.handler JSON_parse TABLE_NAME event env) s)) ->
    exists m,
      c = PutItemCommand TABLE_NAME m
      /\ map fst m = ["ClientId"; "OrderId"; "Items"; "PaymentMethod";
                      "Installments"; "CreatedAt"]
      /\ assoc "OrderId" m = Some (AV_N (createOrder.generateOrderId env))
      /\ assoc "CreatedAt" m = Some (AV_S (new_Date_toISOString env)).
Proof.
  intros St client s JSON_parse TABLE_NAME event env c.
  destruct (one_shot_cases _ _
              (createOrder_one_shot JSON_parse TABLE_NAME event env))
    as [(r & Hp) | (c0 & k & Hp & Hk)].
  { rewrite Hp. intros []. }
  rewrite Hp. destruct (run_one_send client c0 k s Hk) as (a & -> & _).
  intros [<-|[]]. revert Hp.
  unfold createOrder.handler, createOrder.try_block, send.
  repeat (lift_step; try solve [no_send]).
  all: cbn [bind try_catch]; intros Hp; injection Hp as <- _.
  all: match goal with
       | H : marshall _ = inr ?i |- _ =>
           exists i; split; [reflexivity|];
           split; [exact (marshall_names _ _ H)|];
           split;
           [ destruct (marshall_assoc _ _ "OrderId" _ H eq_refl)
               as (a1 & -> & Ha1)
           | destruct (marshall_assoc _ _ "CreatedAt" _ H eq_refl)
               as (a1 & -> & Ha1) ]
       end.
  all: cbn [convertToAttr] in Ha1;
    repeat match type of Ha1 with
      | (if ?b then _ else _) = _ => destruct b; try discriminate
      end;
    injection Ha1 as <-; reflexivity.
Qed.

(** X1 on the scenario request, against the table of the stack. *)
Lemma createOrder_puts_six_attributes_witness :
  exists m,
    PutItemCommand "apigateway-lambda-db" scenario_item
    = PutItemCommand AwsApigatewayLambdaCdkStack.TABLE_NAME m
    /\ map fst m = ["ClientId"; "OrderId"; "Items"; "PaymentMethod";
                    "Installments"; "CreatedAt"]
    /\ assoc "OrderId" m = Some (AV_N (createOrder.generateOrderId sample_env))
    /\ assoc "CreatedAt" m = Some (AV_S (new_Date_toISOString sample_env)).
Proof.
  apply (createOrder_puts_six_attributes DynamoDB dynamodb_send (deployed [])
           sample_parse AwsApigatewayLambdaCdkStack.TABLE_NAME
           (create_event scenario_text) sample_env).
  vm_compute. left. reflexivity.
Defined.




(** X3. A CreateOrder body that parses to [null], or to an object that
    lacks one of [clientId], [items], [paymentMethod] and [installments],
    is answered with the generic server error, whatever the store client,
    and nothing is sent to the store. *)
Theorem createOrder_incomplete_payload_is_500 :
  forall (St : Type) (client : Client St) (s : St)
         JSON_parse TABLE_NAME event env text payload,
    body event = Some text ->
    JSON_parse text = inr payload ->
    (payload = VNull
     \/ exists props field,
         payload = VObj props
         /\ In field ["clientId"; "items"; "paymentMethod"; "installments"]
         /\ assoc field props = None) ->
    run client (createOrder.handler JSON_parse TABLE_NAME event env) s
    = (inr internal_error, s, []).
Proof.
  intros St client s JSON_parse TABLE_NAME event env text payload Hb Hp Hbad.
  unfold createOrder.handler, createOrder.try_block.
  rewrite Hb, Hp. cbn [lift bind].
  destruct Hbad as [-> | (props & field & -> & Hin & Hnone)]; [reflexivity|].
  cbn [get_prop].
  destruct (assoc "clientId" props) eqn:E1, (assoc "items" props) eqn:E2,
    (assoc "paymentMethod" props) eqn:E3, (assoc "installments" props) eqn:E4;
    try (exfalso; destruct Hin as [<-|[<-|[<-|[<-|[]]]]]; congruence);
    cbn [lift bind]; rewrite !marshall_cons; cbn [convertToAttr];
    repeat match goal with
      | |- context [match convertToAttr ?v with inl _ => _ | inr _ => _ end] =>
          destruct (convertToAttr v); cbn [lift bind try_catch]
      | |- context [if ?b then _ else _] =>
          destruct b; cbn [lift bind try_catch]
      end;
    reflexivity.
Qed.

(** X3 on the body [{"installments":6}], which has no [clientId]. *)
Lemma createOrder_incomplete_payload_is_500_witness :
  run dynamodb_send
    (createOrder.handler sample_parse AwsApigatewayLambdaCdkStack.TABLE_NAME
       (create_event six_text) sample_env)
    (deployed [scenario_item])
  = (inr internal_error, deployed [scenario_item], []).
Proof.
  apply (createOrder_incomplete_payload_is_500 DynamoDB dynamodb_send
           (deployed [scenario_item]) sample_parse
           AwsApigatewayLambdaCdkStack.TABLE_NAME (create_event six_text)
           sample_env six_text six_payload eq_refl eq_refl).
  right. exists [("installments", VNum 6)], "clientId".
  split; [reflexivity|]. split; [left; reflexivity | reflexivity].
Defined.

(** ** generateOrderId *)





(** X6. However the random draws of [0, 1) fall, more than a thousand
    invocations that read the same millisecond cannot all get different
    identifiers. *)
Theorem generateOrderId_thousand_per_millisecond :
  forall (envs : list Env) (now : Z),
    (forall env, In env envs ->
                 Date_now env = now
                 /\ (0 <= Math_random env)%Q /\ (Math_random env < 1)%Q) ->
    (1000 < List.length envs)%nat ->
    ~ NoDup (map createOrder.generateOrderId envs).
Proof. exact generateOrderId_collision_forced. Qed.

Lemma generateOrderId_thousand_per_millisecond_witness :
  ~ NoDup (map createOrder.generateOrderId (List.repeat sample_env 1001)).
Proof.
  apply (generateOrderId_thousand_per_millisecond
           (List.repeat sample_env 1001) 1700000000000).
  - intros env Hin. apply repeat_spec in Hin. subst env.
    split; [reflexivity|]. split; [unfold Qle; simpl; lia | reflexivity].
  - rewrite repeat_length. lia.
Defined.

(** ** CreateOrder and ListOrdersByClient on the table of the stack *)

Lemma leb_safe n :
  MIN_SAFE_INTEGER <= n <= MAX_SAFE_INTEGER ->
  (MIN_SAFE_INTEGER <=? n) && (n <=? MAX_SAFE_INTEGER) = true.
Proof. intros H. apply andb_true_iff. rewrite !Z.leb_le. exact H. Qed.

(** The order CreateOrder stores for a payload. *)
Lemma createOrder_run_valid JSON_parse env event its text props c vi vp vn :
  body event = Some text ->
  JSON_parse text = inr (VObj props) ->
  assoc "clientId" props = Some (VNum c) ->
  MIN_SAFE_INTEGER <= c <= MAX_SAFE_INTEGER ->
  assoc "items" props = Some vi -> json_safe vi = true ->
  assoc "paymentMethod" props = Some vp -> json_safe vp = true ->
  assoc "installments" props = Some vn -> json_safe vn = true ->
  0 <= Date_now env <= 9007199254739 ->
  (0 <= Math_random env)%Q -> (Math_random env < 1)%Q ->
  (forall it, In it its ->
              attr_is "ClientId" (AV_N c) it
              && attr_is "OrderId" (AV_N (createOrder.generateOrderId env)) it
              = false) ->
  exists ai ap an,
    (convertToNative ai = vi /\ convertToNative ap = vp
     /\ convertToNative an = vn)
    /\ let item :=
         [("ClientId", AV_N c);
          ("OrderId", AV_N (createOrder.generateOrderId env));
          ("Items", ai); ("PaymentMethod", ap); ("Installments", an);
          ("CreatedAt", AV_S (new_Date_toISOString env))] in
       run dynamodb_send
         (createOrder.handler JSON_parse AwsApigatewayLambdaCdkStack.TABLE_NAME
            event env)
         (deployed its)
       = (inr {| statusCode := 201; headers := json_headers;
                 body_json :=
                   VObj [("success", VBool true);
                         ("orderId", VNum (createOrder.generateOrderId env));
                         ("clientId", VNum c)] |},
          deployed (its ++ [item]),
          [PutItemCommand "apigateway-lambda-db" item]).
Proof.
  intros Hb Hparse Hc Hcs Hi Hsi Hp Hsp Hn Hsn Hnow Hr0 Hr1 Hfresh.
  pose proof (generateOrderId_range env Hr0 Hr1) as Hid.
  destruct (convertToAttr_json_safe vi Hsi) as (ai & Hai & Hbi).
  destruct (convertToAttr_json_safe vp Hsp) as (ap & Hap & Hbp).
  destruct (convertToAttr_json_safe vn Hsn) as (an & Han & Hbn).
  exists ai, ap, an. split; [auto|]. cbv zeta.
  unfold createOrder.handler, createOrder.try_block.
  rewrite Hb, Hparse. cbn [lift bind get_prop]. rewrite Hc, Hi, Hp, Hn.
  cbn [lift bind].
  set (id := createOrder.generateOrderId env) in *. clearbody id.
  rewrite !marshall_cons, marshall_nil, Hai, Hap, Han.
  cbn [convertToAttr]. safe_nums.
  cbn -[same_key existsb].
  unfold store_item. rewrite existsb_none; [reflexivity|].
  intros it Hit. unfold same_key. simpl. apply Hfresh. exact Hit.
Qed.

(** X7. On the table of the stack: a CreateOrder whose payload has a
    safe-integer [clientId] and JSON values with safe numbers for [items],
    [paymentMethod] and [installments], at a time whose generated
    identifier is not already stored for that client, is answered 201 with
    the generated [orderId] and the [clientId]; the table keeps its items
    and gains one, with the six attributes of the order; unmarshalling
    the stored [Items], [PaymentMethod] and [Installments] gives the
    values of the payload back. *)
Theorem createOrder_stores_the_order :
  forall JSON_parse env event its text props c vi vp vn,
    body event = Some text ->
    JSON_parse text = inr (VObj props) ->
    assoc "clientId" props = Some (VNum c) ->
    MIN_SAFE_INTEGER <= c <= MAX_SAFE_INTEGER ->
    assoc "items" props = Some vi -> json_safe vi = true ->
    assoc "paymentMethod" props = Some vp -> json_safe vp = true ->
    assoc "installments" props = Some vn -> json_safe vn = true ->
    0 <= Date_now env <= 9007199254739 ->
    (0 <= Math_random env)%Q -> (Math_random env < 1)%Q ->
    (forall it, In it its ->
                attr_is "ClientId" (AV_N c) it
                && attr_is "OrderId" (AV_N (createOrder.generateOrderId env)) it
                = false) ->
    exists ai ap an,
      (convertToNative ai = vi /\ convertToNative ap = vp
       /\ convertToNative an = vn)
      /\ let item :=
           [("ClientId", AV_N c);
            ("OrderId", AV_N (createOrder.generateOrderId env));
            ("Items", ai); ("PaymentMethod", ap); ("Installments", an);
            ("CreatedAt", AV_S (new_Date_toISOString env))] in
         run dynamodb_send
           (createOrder.handler JSON_parse
              AwsApigatewayLambdaCdkStack.TABLE_NAME event env)
           (deployed its)
         = (inr {| statusCode := 201; headers := json_headers;
                   body_json :=
                     VObj [("success", VBool true);
                           ("orderId", VNum (createOrder.generateOrderId env));
                           ("clientId", VNum c)] |},
            deployed (its ++ [item]),
            [PutItemCommand "apigateway-lambda-db" item]).
Proof. intros. eapply createOrder_run_valid; eassumption. Qed.

(** X7 on the second payload, one millisecond after the scenario order
    was stored. *)
Lemma createOrder_stores_the_order_witness :
  exists ai ap an,
    (convertToNative ai
     = VArr [VObj [("productId", VNum 77); ("quantity", VNum 1)]]
     /\ convertToNative ap = VStr "credit_card"
     /\ convertToNative an = VNum 12)
    /\ let item :=
         [("ClientId", AV_N 1);
          ("OrderId", AV_N (createOrder.generateOrderId later_env));
          ("Items", ai); ("PaymentMethod", ap); ("Installments", an);
          ("CreatedAt", AV_S (new_Date_toISOString later_env))] in
       run dynamodb_send
         (createOrder.handler sample_parse
            AwsApigatewayLambdaCdkStack.TABLE_NAME (create_event other_text)
            later_env)
         (deployed [scenario_item])
       = (inr {| statusCode := 201; headers := json_headers;
                 body_json :=
                   VObj [("success", VBool true);
                         ("orderId",
                          VNum (createOrder.generateOrderId later_env));
                         ("clientId", VNum 1)] |},
          deployed ([scenario_item] ++ [item]),
          [PutItemCommand "apigateway-lambda-db" item]).
Proof.
  refine (createOrder_stores_the_order sample_parse later_env
            (create_event other_text) [scenario_item] other_text
            [("clientId", VNum 1);
             ("items",
              VArr [VObj [("productId", VNum 77); ("quantity", VNum 1)]]);
             ("paymentMethod", VStr "credit_card");
             ("installments", VNum 12)]
            1 _ _ _ eq_refl eq_refl eq_refl _ eq_refl eq_refl eq_refl eq_refl
            eq_refl eq_refl _ _ _ _).
  - unfold MIN_SAFE_INTEGER, MAX_SAFE_INTEGER. lia.
  - simpl. lia.
  - unfold Qle. simpl. lia.
  - reflexivity.
  - intros it [<-|[]]. reflexivity.
Defined.

(** X8. On the table of the stack, for every payload as in X7 and every
    client that has no stored order yet: after the CreateOrder, a
    ListOrdersByClient for that client without filter answers 200 with
    [count: 1] and one order, whose [ClientId], [Items], [PaymentMethod]
    and [Installments] are the values of the payload, whose [OrderId] is
    the identifier returned and whose [CreatedAt] is the time read. *)
Theorem createOrder_then_list_returns_the_payload :
  forall JSON_parse env event event' its text props cs c vi vp vn,
    body event = Some text ->
    JSON_parse text = inr (VObj props) ->
    assoc "clientId" props = Some (VNum c) ->
    MIN_SAFE_INTEGER <= c <= MAX_SAFE_INTEGER ->
    assoc "items" props = Some vi -> json_safe vi = true ->
    assoc "paymentMethod" props = Some vp -> json_safe vp = true ->
    assoc "installments" props = Some vn -> json_safe vn = true ->
    0 <= Date_now env <= 9007199254739 ->
    (0 <= Math_random env)%Q -> (Math_random env < 1)%Q ->
    (forall it, In it its -> attr_is "ClientId" (AV_N c) it = false) ->
    path_param event' "clientId" = Some cs -> cs <> EmptyString ->
    parseInt cs = VNum c ->
    missing (query_param event' "paymentMethod") ->
    let tn := AwsApigatewayLambdaCdkStack.TABLE_NAME in
    let created :=
      snd (fst (run dynamodb_send
                  (createOrder.handler JSON_parse tn event env)
                  (deployed its))) in
    fst (fst (run dynamodb_send (getOrdersByClient.handler tn event') created))
    = inr {| statusCode := 200; headers := json_headers;
             body_json :=
               VObj [("success", VBool true);
                     ("clientId", VNum c);
                     ("count", VNum 1);
                     ("orders",
                      VArr [VObj [("ClientId", VNum c);
                                  ("OrderId",
                                   VNum (createOrder.generateOrderId env));
                                  ("Items", vi);
                                  ("PaymentMethod", vp);
                                  ("Installments", vn);
                                  ("CreatedAt",
                                   VStr (new_Date_toISOString env))]])] |}.
Proof.
  intros JSON_parse env event event' its text props cs c vi vp vn
    Hb Hparse Hc Hcs Hi Hsi Hp Hsp Hn Hsn Hnow Hr0 Hr1 Hnone
    Hpath Hne Hparsed Hpm tn created.
  destruct (createOrder_run_valid JSON_parse env event its text props c
              vi vp vn Hb Hparse Hc Hcs Hi Hsi Hp Hsp Hn Hsn Hnow Hr0 Hr1)
    as (ai & ap & an & (Hai & Hap & Han) & Hrun).
  { intros it Hit. rewrite (Hnone it Hit). reflexivity. }
  cbv zeta in Hrun. subst created tn. rewrite Hrun. cbn [fst snd].
  pose proof (generateOrderId_range env Hr0 Hr1) as Hid.
  set (id := createOrder.generateOrderId env) in *. clearbody id.
  apply truthy_false_iff in Hpm.
  unfold getOrdersByClient.handler, getOrdersByClient.try_block.
  rewrite Hpath. cbn [the_string]. rewrite (truthy_Some cs Hne), Hparsed, Hpm.
  cbn [negb isNaN andb]. rewrite !marshall_cons, marshall_nil.
  cbn [convertToAttr]. safe_nums.
  cbn -[Z.gtb Z.ltb filter sort_by_sort_key convertToNative JSON_stringify
        unmarshall].
  rewrite filter_app, (filter_none _ its Hnone).
  cbn -[Z.gtb Z.ltb convertToNative JSON_stringify unmarshall].
  rewrite Z.eqb_refl.
  cbn -[Z.gtb Z.ltb convertToNative JSON_stringify unmarshall].
  unfold unmarshall. cbn [convertToNative]. rewrite Hai, Hap, Han.
  safe_nums. cbn [orb].
  rewrite JSON_stringify_json_safe; [reflexivity|].
  cbn [json_safe forallb snd]. rewrite Hsi, Hsp, Hsn.
  rewrite !leb_safe by (unfold MIN_SAFE_INTEGER, MAX_SAFE_INTEGER in *; lia).
  reflexivity.
Qed.

(** X8 on the second payload, for a table that holds no order. *)
Lemma createOrder_then_list_returns_the_payload_witness :
  fst (fst (run dynamodb_send
              (getOrdersByClient.handler AwsApigatewayLambdaCdkStack.TABLE_NAME
                 (list_event "1" None))
              (snd (fst (run dynamodb_send
                           (createOrder.handler sample_parse
                              AwsApigatewayLambdaCdkStack.TABLE_NAME
                              (create_event other_text) later_env)
                           (deployed []))))))
  = inr {| statusCode := 200; headers := json_headers;
           body_json :=
             VObj [("success", VBool true);
                   ("clientId", VNum 1);
                   ("count", VNum 1);
                   ("orders",
                    VArr [VObj [("ClientId", VNum 1);
                                ("OrderId", VNum 1700000000001250);
                                ("Items",
                                 VArr [VObj [("productId", VNum 77);
                                             ("quantity", VNum 1)]]);
                                ("PaymentMethod", VStr "credit_card");
                                ("Installments", VNum 12);
                                ("CreatedAt",
                                 VStr "2023-11-14T22:13:20.001Z")]])] |}.
Proof.
  refine (createOrder_then_list_returns_the_payload sample_parse later_env
            (create_event other_text) (list_event "1" None) [] other_text
            [("clientId", VNum 1);
             ("items",
              VArr [VObj [("productId", VNum 77); ("quantity", VNum 1)]]);
             ("paymentMethod", VStr "credit_card");
             ("installments", VNum 12)]
            "1" 1 _ _ _ eq_refl eq_refl eq_refl _ eq_refl eq_refl eq_refl
            eq_refl eq_refl eq_refl _ _ _ _ eq_refl _ eq_refl _).
  - unfold MIN_SAFE_INTEGER, MAX_SAFE_INTEGER. lia.
  - simpl. lia.
  - unfold Qle. simpl. lia.
  - reflexivity.
  - intros it [].
  - discriminate.
  - left. reflexivity.
Defined.

(** ** The document of a list answer *)

Lemma JSON_stringify_arr l d :
  JSON_stringify (VArr l) = inr d ->
  exists docs,
    d = VArr docs /\ Forall2 (fun x y => JSON_stringify x = inr y) l docs.
Proof.
  cbn [JSON_stringify].
  match goal with
  | |- context [match ?f l with inl _ => _ | inr r => inr (VArr r) end] =>
      set (go := f);
      assert (Hgo : forall r, go l = inr r ->
                              Forall2 (fun x y => JSON_stringify x = inr y) l r)
  end.
  { induction l as [|x l IH]; intros r.
    - cbn. intros H. injection H as <-. constructor.
    - unfold go. cbn. destruct (JSON_stringify x) as [e|a] eqn:Hx;
        [discriminate|].
      fold go. destruct (go l) as [e|ar]; [discriminate|].
      intros H. injection H as <-. constructor; auto. }
  destruct (go l) as [e|r]; [discriminate|].
  intros H. injection H as <-. eauto.
Qed.

Lemma JSON_stringify_obj_cons k x r :
  x <> VUndefined ->
  JSON_stringify (VObj ((k, x) :: r))
  = match JSON_stringify x with
    | inl e => inl e
    | inr a =>
        match JSON_stringify (VObj r) with
        | inr (VObj m) => inr (VObj ((k, a) :: m))
        | other => other
        end
    end.
Proof.
  intros Hx.
  destruct x as [ | | b | | n | n | str | arr | obj ]; try contradiction;
    cbn [JSON_stringify];
    repeat match goal with
      | |- context [match ?f ?l with inl _ => _ | inr _ => _ end] =>
          destruct (f l)
      end;
    reflexivity.
Qed.

Lemma Forall2_length_eq {A B : Type} (R : A -> B -> Prop) l l' :
  Forall2 R l l' -> List.length l = List.length l'.
Proof. induction 1; simpl; congruence. Qed.

Lemma JSON_stringify_scalar v :
  match v with VNum _ | VBool _ | VStr _ | VNull => True | _ => False end ->
  JSON_stringify v = inr v.
Proof. destruct v; intros []; reflexivity. Qed.

(** The body of a 200 answer of ListOrdersByClient. *)
Lemma list_document n echo orders doc :
  (echo = [] \/ exists p, echo = [("paymentMethod", VStr p)]) ->
  JSON_stringify
    (VObj ([("success", VBool true); ("clientId", VNum n)]
           ++ echo
           ++ [("count", VNum (Z.of_nat (List.length orders)));
               ("orders", VArr orders)]))
  = inr doc ->
  exists docs,
    doc = VObj ([("success", VBool true); ("clientId", VNum n)]
                ++ echo
                ++ [("count", VNum (Z.of_nat (List.length docs)));
                    ("orders", VArr docs)])
    /\ Forall2 (fun x y => JSON_stringify x = inr y) orders docs.
Proof.
  intros Hecho H.
  assert (Htail : forall d,
             JSON_stringify
               (VObj [("count", VNum (Z.of_nat (List.length orders)));
                      ("orders", VArr orders)]) = inr d ->
             exists docs,
               d = VObj [("count", VNum (Z.of_nat (List.length docs)));
                         ("orders", VArr docs)]
               /\ Forall2 (fun x y => JSON_stringify x = inr y) orders docs).
  { intros d. rewrite !JSON_stringify_obj_cons by discriminate.
    rewrite (JSON_stringify_scalar (VNum _) I).
    destruct (JSON_stringify (VArr orders)) as [e|a] eqn:Ha; [discriminate|].
    destruct (JSON_stringify_arr _ _ Ha) as (docs & -> & Hf).
    cbn. intros Hd. injection Hd as <-. exists docs.
    rewrite (Forall2_length_eq _ _ _ Hf). auto. }
  destruct Hecho as [-> | (p & ->)]; cbn [app] in H |- *.
  - rewrite !(JSON_stringify_obj_cons "success"),
      !(JSON_stringify_obj_cons "clientId") in H by discriminate.
    rewrite (JSON_stringify_scalar (VBool _) I),
      (JSON_stringify_scalar (VNum _) I) in H.
    destruct (JSON_stringify (VObj _)) as [e|d] eqn:Hd; [discriminate|].
    destruct (Htail d eq_refl) as (docs & -> & Hf).
    cbn in H. injection H as <-. eauto.
  - rewrite !(JSON_stringify_obj_cons "success"),
      !(JSON_stringify_obj_cons "clientId"),
      !(JSON_stringify_obj_cons "paymentMethod") in H by discriminate.
    rewrite (JSON_stringify_scalar (VBool _) I),
      (JSON_stringify_scalar (VNum _) I),
      (JSON_stringify_scalar (VStr _) I) in H.
    destruct (JSON_stringify (VObj _)) as [e|d] eqn:Hd; [discriminate|].
    destruct (Htail d eq_refl) as (docs & -> & Hf).
    cbn in H. injection H as <-. eauto.
Qed.

(** ** ListOrdersByClient *)

Lemma parseInt_cases s : parseInt s = VNaN \/ exists n, parseInt s = VNum n.
Proof.
  unfold parseInt.
  destruct (match skip_ws (String.length s) s with
            | String "-" r => (-1, r)
            | String "+" r => (1, r)
            | _ => (1, skip_ws (String.length s) s)
            end) as [sign s2].
  destruct (match s2 with
            | String "0" (String "x" r) => (16, r)
            | String "0" (String "X" r) => (16, r)
            | _ => (10, s2)
            end) as [radix s3].
  destruct (read_digits radix None s3); eauto.
Qed.

Lemma convertToAttr_num_inv n a : convertToAttr (VNum n) = inr a -> a = AV_N n.
Proof.
  cbn [convertToAttr]. destruct (n >? MAX_SAFE_INTEGER); [discriminate|].
  destruct (n <? MIN_SAFE_INTEGER); [discriminate|].
  intros H. injection H as <-. reflexivity.
Qed.

(** A 200 answer of ListOrdersByClient, against any store client: the
    command sent, the answer of the client and the body. *)
Lemma getOrdersByClient_200_answer :
  forall (St : Type) (client : Client St) (s : St) TABLE_NAME event r s' tr,
    run client (getOrdersByClient.handler TABLE_NAME event) s
    = (inr r, s', tr) ->
    statusCode r = 200 ->
    let pm := query_param event "paymentMethod" in
    exists n o docs,
      let query :=
        QueryCommand TABLE_NAME (EQ "ClientId" ":clientId")
          (if truthy pm
           then Some (EQ "PaymentMethod" ":paymentMethod")
           else None)
          ((":clientId", AV_N n)
           :: (if truthy pm
               then [(":paymentMethod", AV_S (the_string pm))]
               else [])) in
      parseInt (the_string (path_param event "clientId")) = VNum n
      /\ tr = [query]
      /\ client query s = (inr o, s')
      /\ body_json r
         = VObj ([("success", VBool true); ("clientId", VNum n)]
                 ++ (if truthy pm
                     then [("paymentMethod", VStr (the_string pm))]
                     else [])
                 ++ [("count", VNum (Z.of_nat (List.length docs)));
                     ("orders", VArr docs)])
      /\ Forall2 (fun it d => JSON_stringify (unmarshall it) = inr d)
           (match Items o with Some l => l | None => [] end) docs.
Proof.
  intros St client s TABLE_NAME event r s' tr.
  unfold getOrdersByClient.handler, getOrdersByClient.try_block, send.
  destruct (negb (truthy (path_param event "clientId")));
    [cbn; intros H; injection H as <- _ _; discriminate|].
  destruct (parseInt_cases (the_string (path_param event "clientId")))
    as [Hn | (n & Hn)]; rewrite Hn; cbn [isNaN];
    [cbn; intros H; injection H as <- _ _; discriminate|].
  destruct (truthy (query_param event "paymentMethod")
            && negb _);
    [cbn; intros H; injection H as <- _ _; discriminate|].
  rewrite marshall_cons.
  destruct (convertToAttr (VNum n)) as [e|a] eqn:Ha;
    [cbn; intros H; injection H as <- _ _; discriminate|].
  apply convertToAttr_num_inv in Ha. subst a.
  assert (Hvals :
            marshall (if truthy (query_param event "paymentMethod")
                      then [(":paymentMethod",
                             VStr (the_string
                                     (query_param event "paymentMethod")))]
                      else [])
            = inr (if truthy (query_param event "paymentMethod")
                   then [(":paymentMethod",
                          AV_S (the_string (query_param event "paymentMethod")))]
                   else []))
    by (destruct (truthy _); reflexivity).
  rewrite Hvals. cbn [lift bind try_catch run].
  destruct (client _ s) as [[e|o] s1] eqn:Hc; cbn [lift bind try_catch run].
  { intros H; injection H as <- _ _; discriminate. }
  destruct (JSON_stringify _) as [e|doc] eqn:Hdoc; cbn [lift bind try_catch run];
    intros H; injection H as <- <- <-; [discriminate|].
  intros _. cbn [body_json].
  apply list_document in Hdoc.
  2:{ destruct (truthy _); eauto. }
  destruct Hdoc as (docs & -> & Hf).
  exists n, o, docs. repeat split.
  - exact Hc.
  - clear -Hf. induction (match Items o with Some l => l | None => [] end)
      as [|x l IH] in docs, Hf |- *;
      cbn [map] in Hf; inversion Hf; subst; constructor; auto.
Qed.

(** X9. Whatever the store client, when ListOrdersByClient answers 200
    it has sent one command, which the client accepted, and the body is
    [{success: true, clientId, paymentMethod?, count, orders}]:
    [clientId] is the number parsed from the path, [paymentMethod] is
    echoed exactly when a non-empty filter was given, [orders] holds the
    documents of the items the client returned, in the same order (none
    when the output has no [Items]), and [count] is their number. *)
Theorem getOrdersByClient_count_and_orders :
  forall (St : Type) (client : Client St) (s : St) TABLE_NAME event r s' tr,
    run client (getOrdersByClient.handler TABLE_NAME event) s
    = (inr r, s', tr) ->
    statusCode r = 200 ->
    let pm := query_param event "paymentMethod" in
    exists n c o docs,
      parseInt (the_string (path_param event "clientId")) = VNum n
      /\ tr = [c]
      /\ client c s = (inr o, s')
      /\ body_json r
         = VObj ([("success", VBool true); ("clientId", VNum n)]
                 ++ (if truthy pm
                     then [("paymentMethod", VStr (the_string pm))]
                     else [])
                 ++ [("count", VNum (Z.of_nat (List.length docs)));
                     ("orders", VArr docs)])
      /\ Forall2 (fun it d => JSON_stringify (unmarshall it) = inr d)
           (match Items o with Some l => l | None => [] end) docs.
Proof.
  intros St client s TABLE_NAME event r s' tr Hrun H200 pm.
  destruct (getOrdersByClient_200_answer St client s TABLE_NAME event r s' tr
              Hrun H200) as (n & o & docs & Hn & Htr & Hc & Hbody & Hf).
  exists n. eexists. exists o, docs. eauto.
Qed.

(** X9 on the listing of client 1 with the filter pix, on the table that
    holds the scenario order. *)
Lemma getOrdersByClient_count_and_orders_witness :
  exists n c o docs,
    parseInt "1" = VNum n
    /\ [QueryCommand "apigateway-lambda-db" (EQ "ClientId" ":clientId")
          (Some (EQ "PaymentMethod" ":paymentMethod"))
          [(":clientId", AV_N 1); (":paymentMethod", AV_S "pix")]]
       = [c]
    /\ dynamodb_send c (deployed [scenario_item])
       = (inr o, deployed [scenario_item])
    /\ VObj [("success", VBool true); ("clientId", VNum 1);
             ("paymentMethod", VStr "pix"); ("count", VNum 1);
             ("orders", VArr [unmarshall scenario_item])]
       = VObj ([("success", VBool true); ("clientId", VNum n)]
               ++ [("paymentMethod", VStr "pix")]
               ++ [("count", VNum (Z.of_nat (List.length docs)));
                   ("orders", VArr docs)])
    /\ Forall2 (fun it d => JSON_stringify (unmarshall it) = inr d)
         (match Items o with Some l => l | None => [] end) docs.
Proof.
  apply (getOrdersByClient_count_and_orders DynamoDB dynamodb_send
           (deployed [scenario_item]) AwsApigatewayLambdaCdkStack.TABLE_NAME
           (list_event "1" (Some "pix"))
           {| statusCode := 200; headers := json_headers;
              body_json :=
                VObj [("success", VBool true); ("clientId", VNum 1);
                      ("paymentMethod", VStr "pix"); ("count", VNum 1);
                      ("orders", VArr [unmarshall scenario_item])] |}).
  - vm_compute. reflexivity.
  - reflexivity.
Defined.

Lemma Permutation_insert_sorted tp x l :
  Permutation (insert_sorted tp x l) (x :: l).
Proof.
  induction l as [|y l IH]; simpl; [reflexivity|].
  destruct (sort_key_leb tp x y); [reflexivity|].
  rewrite IH. apply perm_swap.
Qed.

Lemma Permutation_sort_by_sort_key tp l :
  Permutation (sort_by_sort_key tp l) l.
Proof.
  induction l as [|x l IH]; simpl; [reflexivity|].
  rewrite Permutation_insert_sorted. constructor. exact IH.
Qed.

Lemma Permutation_filter_compat {A : Type} (f : A -> bool) l l' :
  Permutation l l' -> Permutation (filter f l) (filter f l').
Proof.
  induction 1 as [|x l l' H IH|x y l|l l' l'' H1 IH1 H2 IH2]; simpl.
  - reflexivity.
  - destruct (f x); [constructor|]; exact IH.
  - destruct (f x), (f y); try reflexivity. apply perm_swap.
  - etransitivity; eassumption.
Qed.

Lemma filter_filter_andb {A : Type} (f g : A -> bool) l :
  filter g (filter f l) = filter (fun x => f x && g x) l.
Proof.
  induction l as [|x l IH]; simpl; [reflexivity|].
  destruct (f x); simpl; [destruct (g x)|]; rewrite ?IH; reflexivity.
Qed.

(** X10. On the table of the stack, when ListOrdersByClient answers 200
    the table is unchanged and the orders listed are the documents of
    exactly the stored items whose [ClientId] is the number parsed from
    the path and, when a non-empty filter is given, whose [PaymentMethod]
    is the filter: each such item once, no other item; [count] is their
    number. *)
Theorem getOrdersByClient_lists_the_matching_orders :
  forall event its r db' tr,
    run dynamodb_send
      (getOrdersByClient.handler AwsApigatewayLambdaCdkStack.TABLE_NAME event)
      (deployed its)
    = (inr r, db', tr) ->
    statusCode r = 200 ->
    let pm := query_param event "paymentMethod" in
    exists n selected docs,
      parseInt (the_string (path_param event "clientId")) = VNum n
      /\ db' = deployed its
      /\ Permutation selected
           (filter (fun it =>
                      attr_is "ClientId" (AV_N n) it
                      && (if truthy pm
                          then attr_is "PaymentMethod" (AV_S (the_string pm)) it
                          else true))
              its)
      /\ Forall2 (fun it d => JSON_stringify (unmarshall it) = inr d)
           selected docs
      /\ body_json r
         = VObj ([("success", VBool true); ("clientId", VNum n)]
                 ++ (if truthy pm
                     then [("paymentMethod", VStr (the_string pm))]
                     else [])
                 ++ [("count", VNum (Z.of_nat (List.length docs)));
                     ("orders", VArr docs)]).
Proof.
  intros event its r db' tr Hrun H200 pm.
  destruct (getOrdersByClient_200_answer _ _ _ _ _ _ _ _ Hrun H200)
    as (n & o & docs & Hn & _ & Hc & Hbody & Hf).
  fold pm in Hc, Hbody.
  exists n, (match Items o with Some l => l | None => [] end), docs.
  split; [exact Hn|].
  destruct (truthy pm) eqn:Hpm.
  - cbn -[filter sort_by_sort_key] in Hc. injection Hc as <- <-.
    cbn [Items] in *. repeat split; auto.
    etransitivity;
      [apply Permutation_filter_compat, Permutation_sort_by_sort_key|].
    rewrite filter_filter_andb. reflexivity.
  - cbn -[filter sort_by_sort_key] in Hc. injection Hc as <- <-.
    cbn [Items] in *. repeat split; auto.
    rewrite Permutation_sort_by_sort_key.
    erewrite filter_ext; [reflexivity|].
    intros it. cbn. rewrite andb_true_r. reflexivity.
Qed.

(** X10 on the table that holds the scenario order: client 1, filter
    pix. *)
Lemma getOrdersByClient_lists_the_matching_orders_witness :
  exists n selected docs,
    parseInt "1" = VNum n
    /\ deployed [scenario_item] = deployed [scenario_item]
    /\ Permutation selected
         (filter (fun it =>
                    attr_is "ClientId" (AV_N n) it
                    && attr_is "PaymentMethod" (AV_S "pix") it)
            [scenario_item])
    /\ Forall2 (fun it d => JSON_stringify (unmarshall it) = inr d)
         selected docs
    /\ VObj [("success", VBool true); ("clientId", VNum 1);
             ("paymentMethod", VStr "pix"); ("count", VNum 1);
             ("orders", VArr [unmarshall scenario_item])]
       = VObj ([("success", VBool true); ("clientId", VNum n)]
               ++ [("paymentMethod", VStr "pix")]
               ++ [("count", VNum (Z.of_nat (List.length docs)));
                   ("orders", VArr docs)]).
Proof.
  apply (getOrdersByClient_lists_the_matching_orders
           (list_event "1" (Some "pix")) [scenario_item]
           {| statusCode := 200; headers := json_headers;
              body_json :=
                VObj [("success", VBool true); ("clientId", VNum 1);
                      ("paymentMethod", VStr "pix"); ("count", VNum 1);
                      ("orders", VArr [unmarshall scenario_item])] |}
           (deployed [scenario_item])
           [QueryCommand "apigateway-lambda-db" (EQ "ClientId" ":clientId")
              (Some (EQ "PaymentMethod" ":paymentMethod"))
              [(":clientId", AV_N 1); (":paymentMethod", AV_S "pix")]]).
  - vm_compute. reflexivity.
  - reflexivity.
Defined.

(** X11. Whatever the store client and however the request ends, every
    command ListOrdersByClient sends is a [Query] with the key condition
    [ClientId = :clientId], with no filter or the filter
    [PaymentMethod = :paymentMethod]: it never sends a write. *)
Theorem getOrdersByClient_only_queries :
  forall (St : Type) (client : Client St) (s : St) TABLE_NAME event c,
    In c (snd (run client (getOrdersByClient.handler TABLE_NAME event) s)) ->
    exists flt values,
      c = QueryCommand TABLE_NAME (EQ "ClientId" ":clientId") flt values
      /\ (flt = None \/ flt = Some (EQ "PaymentMethod" ":paymentMethod")).
Proof.
  intros St client s TABLE_NAME event c.
  destruct (one_shot_cases _ _ (getOrdersByClient_one_shot TABLE_NAME event))
    as [(r & Hp) | (c0 & k & Hp & Hk)].
  { rewrite Hp. intros []. }
  rewrite Hp. destruct (run_one_send client c0 k s Hk) as (a & -> & _).
  intros [<-|[]]. revert Hp.
  unfold getOrdersByClient.handler, getOrdersByClient.try_block, send.
  destruct (negb (truthy (path_param event "clientId")));
    [cbn [try_catch]; no_send|].
  destruct (isNaN _); [cbn [try_catch]; no_send|].
  destruct (truthy (query_param event "paymentMethod") && _);
    [cbn [try_catch]; no_send|].
  repeat (lift_step; try solve [no_send]).
  all: cbn [bind try_catch]; intros Hp; injection Hp as <- _.
  all: eexists; eexists; split; [reflexivity|].
  all: destruct (truthy _); auto.
Qed.

(** X11 on the listing of client 1 against the table of the stack. *)
Lemma getOrdersByClient_only_queries_witness :
  exists flt values,
    QueryCommand "apigateway-lambda-db" (EQ "ClientId" ":clientId") None
      [(":clientId", AV_N 1)]
    = QueryCommand AwsApigatewayLambdaCdkStack.TABLE_NAME
        (EQ "ClientId" ":clientId") flt values
    /\ (flt = None \/ flt = Some (EQ "PaymentMethod" ":paymentMethod")).
Proof.
  apply (getOrdersByClient_only_queries DynamoDB dynamodb_send
           (deployed [scenario_item]) AwsApigatewayLambdaCdkStack.TABLE_NAME
           (list_event "1" None)).
  vm_compute. left. reflexivity.
Defined.

(** X12. An empty [paymentMethod] is no filter: two requests with the
    same path parameters, whose [paymentMethod] is absent or empty, run
    the same program, so they send the same command and give the same
    answer. *)
Theorem getOrdersByClient_empty_filter_is_no_filter :
  forall TABLE_NAME event1 event2,
    pathParameters event1 = pathParameters event2 ->
    missing (query_param event1 "paymentMethod") ->
    missing (query_param event2 "paymentMethod") ->
    getOrdersByClient.handler TABLE_NAME event1
    = getOrdersByClient.handler TABLE_NAME event2.
Proof.
  intros TABLE_NAME event1 event2 Hpath H1 H2.
  apply truthy_false_iff in H1, H2.
  unfold getOrdersByClient.handler, getOrdersByClient.try_block, path_param.
  rewrite Hpath, H1, H2. reflexivity.
Qed.

(** X12 on [?paymentMethod=] and on no query string, for client 1. *)
Lemma getOrdersByClient_empty_filter_is_no_filter_witness :
  getOrdersByClient.handler AwsApigatewayLambdaCdkStack.TABLE_NAME
    (list_event "1" (Some EmptyString))
  = getOrdersByClient.handler AwsApigatewayLambdaCdkStack.TABLE_NAME
      (list_event "1" None).
Proof.
  apply getOrdersByClient_empty_filter_is_no_filter.
  - reflexivity.
  - right. reflexivity.
  - left. reflexivity.
Defined.

(** ** UpdateInstallments *)



Lemma updated_document cn on inst a doc :
  convertToAttr inst = inr a ->
  JSON_stringify
    (VObj [("success", VBool true); ("clientId", VNum cn);
           ("orderId", VNum on); ("installments", inst)])
  = inr doc ->
  exists idoc,
    doc = VObj [("success", VBool true); ("clientId", VNum cn);
                ("orderId", VNum on); ("installments", idoc)]
    /\ JSON_stringify inst = inr idoc.
Proof.
  intros Ha.
  assert (Hu : inst <> VUndefined) by (intros ->; discriminate).
  rewrite !JSON_stringify_obj_cons by (assumption || discriminate).
  rewrite (JSON_stringify_scalar (VBool _) I),
    !(JSON_stringify_scalar (VNum _) I).
  destruct (JSON_stringify inst) as [e|idoc]; [discriminate|].
  cbn. intros H. injection H as <-. eauto.
Qed.

(** X14. Whatever the store client, UpdateInstallments answers 200 only
    after the client has accepted its one command, and the body is then
    made from the request alone: [{success: true, clientId, orderId,
    installments}] with the two numbers parsed from the path and the
    [installments] of the body.  What the store returned is not used. *)
Theorem updateInstallments_200_echoes_the_request :
  forall (St : Type) (client : Client St) (s : St)
         JSON_parse TABLE_NAME event env r s' tr,
    run client (updateInstallments.handler JSON_parse TABLE_NAME event env) s
    = (inr r, s', tr) ->
    statusCode r = 200 ->
    exists clientId orderId payload installments idoc c o,
      parseInt (the_string (path_param event "clientId")) = VNum clientId
      /\ parseInt (the_string (path_param event "orderId")) = VNum orderId
      /\ JSON_parse (if truthy (body event) then the_string (body event)
                     else "{}") = inr payload
      /\ get_prop payload "installments" = inr installments
      /\ JSON_stringify installments = inr idoc
      /\ body_json r
         = VObj [("success", VBool true); ("clientId", VNum clientId);
                 ("orderId", VNum orderId); ("installments", idoc)]
      /\ tr = [c]
      /\ client c s = (inr o, s').
Proof.
  intros St client s JSON_parse TABLE_NAME event env r s' tr.
  unfold updateInstallments.handler, updateInstallments.try_block, send.
  destruct (negb (truthy (path_param event "clientId"))
            || negb (truthy (path_param event "orderId")));
    [cbn; intros H; injection H as <- _ _; discriminate|].
  destruct (JSON_parse _) as [e|payload] eqn:Hparse; cbn [lift bind try_catch];
    [cbn; intros H; injection H as <- _ _; discriminate|].
  destruct (get_prop payload "installments") as [e|inst] eqn:Hinst;
    cbn [lift bind try_catch];
    [cbn; intros H; injection H as <- _ _; discriminate|].
  rewrite !marshall_cons, marshall_nil.
  destruct (parseInt_cases (the_string (path_param event "clientId")))
    as [-> | (cn & Hcn)];
    [cbn; intros H; injection H as <- _ _; discriminate|].
  destruct (parseInt_cases (the_string (path_param event "orderId")))
    as [-> | (on & Hon)].
  { rewrite Hcn. destruct (convertToAttr (VNum cn));
      cbn; intros H; injection H as <- _ _; discriminate. }
  rewrite Hcn, Hon.
  destruct (convertToAttr (VNum cn)) as [e|a];
    cbn [lift bind try_catch];
    [cbn; intros H; injection H as <- _ _; discriminate|].
  destruct (convertToAttr (VNum on)) as [e|b];
    cbn [lift bind try_catch];
    [cbn; intros H; injection H as <- _ _; discriminate|].
  destruct (convertToAttr inst) as [e|ai] eqn:Hai;
    cbn [lift bind try_catch convertToAttr];
    [cbn; intros H; injection H as <- _ _; discriminate|].
  cbn [run]. destruct (client _ s) as [[e|o] s1] eqn:Hc;
    cbn [lift bind try_catch run].
  { intros H; injection H as <- _ _; discriminate. }
  destruct (JSON_stringify _) as [e|doc] eqn:Hdoc;
    cbn [lift bind try_catch run];
    intros H; injection H as <- <- <-; [discriminate|].
  intros _. destruct (updated_document _ _ _ _ _ Hai Hdoc) as (idoc & -> & Hi).
  exists cn, on, payload, inst, idoc. eexists. exists o.
  repeat split; auto.
Qed.

(** X14 on the update of client 1, order 5, on the table keyed by
    [ClientID]. *)
Lemma updateInstallments_200_echoes_the_request_witness :
  exists clientId orderId payload installments idoc c o,
    parseInt "1" = VNum clientId
    /\ parseInt "5" = VNum orderId
    /\ sample_parse six_text = inr payload
    /\ get_prop payload "installments" = inr installments
    /\ JSON_stringify installments = inr idoc
    /\ VObj [("success", VBool true); ("clientId", VNum 1);
             ("orderId", VNum 5); ("installments", VNum 6)]
       = VObj [("success", VBool true); ("clientId", VNum clientId);
               ("orderId", VNum orderId); ("installments", idoc)]
    /\ [UpdateItemCommand "apigateway-lambda-db"
          [("ClientID", AV_N 1); ("OrderId", AV_N 5)]
          [SET "Installments" ":installments"; SET "UpdatedAt" ":updatedAt"]
          None
          [(":installments", AV_N 6);
           (":updatedAt", AV_S "2023-11-14T22:13:20.000Z")]
          "ALL_NEW"]
       = [c]
    /\ dynamodb_send c {| props := part_000.table; items := [] |}
       = (inr o,
          {| props := part_000.table;
             items := [[("ClientID", AV_N 1); ("OrderId", AV_N 5);
                        ("Installments", AV_N 6);
                        ("UpdatedAt", AV_S "2023-11-14T22:13:20.000Z")]] |}).
Proof.
  apply (updateInstallments_200_echoes_the_request DynamoDB dynamodb_send
           {| props := part_000.table; items := [] |} sample_parse
           part_000.TABLE_NAME (update_event "1" "5" six_text) sample_env
           {| statusCode := 200; headers := json_headers;
              body_json := VObj [("success", VBool true);
                                 ("clientId", VNum 1);
                                 ("orderId", VNum 5);
                                 ("installments", VNum 6)] |}).
  - vm_compute. reflexivity.
  - reflexivity.
Defined.

(** X15. An UpdateInstallments request with both path identifiers whose
    body parses to [null], or to an object without [installments], is
    answered with the generic server error, whatever the store client, and
    nothing is sent to the store. *)
Theorem updateInstallments_without_installments_is_500 :
  forall (St : Type) (client : Client St) (s : St)
         JSON_parse TABLE_NAME event env payload,
    ~ missing (path_param event "clientId") ->
    ~ missing (path_param event "orderId") ->
    JSON_parse (if truthy (body event) then the_string (body event) else "{}")
    = inr payload ->
    (payload = VNull
     \/ exists props, payload = VObj props /\ assoc "installments" props = None) ->
    run client (updateInstallments.handler JSON_parse TABLE_NAME event env) s
    = (inr internal_error, s, []).
Proof.
  intros St client s JSON_parse TABLE_NAME event env payload Hc Ho Hp Hbad.
  unfold updateInstallments.handler, updateInstallments.try_block.
  destruct (truthy (path_param event "clientId")) eqn:Htc.
  2:{ apply truthy_false_iff in Htc. contradiction. }
  destruct (truthy (path_param event "orderId")) eqn:Hto.
  2:{ apply truthy_false_iff in Hto. contradiction. }
  cbn [negb orb]. rewrite Hp. cbn [lift bind].
  destruct Hbad as [-> | (props & -> & Hnone)]; [reflexivity|].
  cbn [get_prop]. rewrite Hnone. cbn [lift bind].
  rewrite !marshall_cons. cbn [convertToAttr].
  repeat match goal with
    | |- context [match convertToAttr ?v with inl _ => _ | inr _ => _ end] =>
        destruct (convertToAttr v); cbn [lift bind try_catch]
    end;
    reflexivity.
Qed.

(** X15 on a request without a body, which is read as [{}]. *)
Lemma updateInstallments_without_installments_is_500_witness :
  run dynamodb_send
    (updateInstallments.handler sample_parse part_000.TABLE_NAME
       {| pathParameters := Some [("clientId", "1"); ("orderId", "5")];
          queryStringParameters := None; body := None |} sample_env)
    {| props := part_000.table; items := [] |}
  = (inr internal_error, {| props := part_000.table; items := [] |}, []).
Proof.
  apply (updateInstallments_without_installments_is_500 DynamoDB dynamodb_send
           {| props := part_000.table; items := [] |} sample_parse
           part_000.TABLE_NAME
           {| pathParameters := Some [("clientId", "1"); ("orderId", "5")];
              queryStringParameters := None; body := None |}
           sample_env (VObj [])).
  - intros [H|H]; discriminate H.
  - intros [H|H]; discriminate H.
  - reflexivity.
  - right. exists []. split; reflexivity.
Defined.

(** ** UpdateInstallments on the table keyed by ClientID *)

Lemma assoc_set_attr_same k v it : assoc k (set_attr k v it) = Some v.
Proof.
  induction it as [|[k0 v0] it IH]; simpl.
  - rewrite String.eqb_refl. reflexivity.
  - destruct (String.eqb_spec k k0) as [->|Hk]; simpl.
    + rewrite String.eqb_refl. reflexivity.
    + destruct (String.eqb_spec k k0); [contradiction | exact IH].
Qed.

Lemma set_attr_overwrite k v1 v2 it :
  set_attr k v2 (set_attr k v1 it) = set_attr k v2 it.
Proof.
  induction it as [|[k0 v0] it IH]; simpl.
  - rewrite String.eqb_refl. reflexivity.
  - destruct (String.eqb_spec k k0) as [->|Hk]; simpl.
    + rewrite String.eqb_refl. reflexivity.
    + destruct (String.eqb_spec k k0); [contradiction|]. rewrite IH.
      reflexivity.
Qed.

(** A second pair of values for [Installments] and [UpdatedAt] replaces
    the first. *)
Lemma apply_sets_overwrite a1 u1 a2 u2 it :
  apply_sets [("Installments", a2); ("UpdatedAt", u2)]
    (apply_sets [("Installments", a1); ("UpdatedAt", u1)] it)
  = apply_sets [("Installments", a2); ("UpdatedAt", u2)] it.
Proof.
  unfold apply_sets. cbn [fold_left fst snd].
  induction it as [|[k v] it IH].
  - reflexivity.
  - cbn [set_attr].
    destruct (String.eqb_spec "Installments" k) as [<-|Hi].
    + cbn. rewrite set_attr_overwrite. reflexivity.
    + cbn [set_attr].
      destruct (String.eqb_spec "UpdatedAt" k) as [<-|Hu].
      * cbn. rewrite set_attr_overwrite. reflexivity.
      * cbn [set_attr].
        destruct (String.eqb_spec "Installments" k); [contradiction|].
        cbn [set_attr].
        destruct (String.eqb_spec "UpdatedAt" k); [contradiction|].
        rewrite IH. reflexivity.
Qed.

Lemma same_key_apply_sets cn on a u it :
  same_key part_000.table [("ClientID", AV_N cn); ("OrderId", AV_N on)]
    (apply_sets [("Installments", a); ("UpdatedAt", u)] it)
  = same_key part_000.table [("ClientID", AV_N cn); ("OrderId", AV_N on)] it.
Proof.
  unfold same_key, attr_is, apply_sets. cbn.
  rewrite !assoc_set_attr_other by discriminate. reflexivity.
Qed.

Lemma find_some_exists {A : Type} (f : A -> bool) l x :
  In x l -> f x = true -> exists y, find f l = Some y.
Proof.
  induction l as [|a l IH]; [intros []|].
  intros [->|Hin] Hx; simpl.
  - rewrite Hx. eauto.
  - destruct (f a); eauto.
Qed.

(** On the table keyed by [ClientID], a second update of an order
    replaces what the first one wrote. *)
Lemma updated_items_overwrite cn on a1 u1 a2 u2 l :
  let key := [("ClientID", AV_N cn); ("OrderId", AV_N on)] in
  updated_items part_000.table key [("Installments", a2); ("UpdatedAt", u2)]
    (updated_items part_000.table key
       [("Installments", a1); ("UpdatedAt", u1)] l)
  = updated_items part_000.table key [("Installments", a2); ("UpdatedAt", u2)]
      l.
Proof.
  intros key.
  assert (Hkk : same_key part_000.table key key = true).
  { unfold same_key, attr_is, key. cbn. rewrite !Z.eqb_refl. reflexivity. }
  unfold updated_items at 2 3.
  destruct (find (same_key part_000.table key) l) as [y|] eqn:Hfind.
  - unfold updated_items.
    destruct (find_some _ _ Hfind) as [Hin Hy].
    destruct (find_some_exists (same_key part_000.table key)
                (map (fun it => if same_key part_000.table key it
                                then apply_sets
                                       [("Installments", a1); ("UpdatedAt", u1)]
                                       it
                                else it) l)
                (apply_sets [("Installments", a1); ("UpdatedAt", u1)] y))
      as [z ->].
    + apply in_map_iff. exists y. rewrite Hy. auto.
    + unfold key. rewrite same_key_apply_sets. exact Hy.
    + rewrite map_map. apply map_ext. intros it.
      destruct (same_key part_000.table key it) eqn:Hit.
      * unfold key in *. rewrite same_key_apply_sets, Hit.
        apply apply_sets_overwrite.
      * rewrite Hit. reflexivity.
  - unfold updated_items.
    assert (Hnone : forall x, In x l -> same_key part_000.table key x = false).
    { intros x Hx. destruct (same_key part_000.table key x) eqn:E; auto.
      destruct (find_some_exists _ _ _ Hx E) as [z Hz]. congruence. }
    assert (Hnew : same_key part_000.table key
                     (apply_sets [("Installments", a1); ("UpdatedAt", u1)] key)
                   = true).
    { unfold key in *. rewrite same_key_apply_sets. exact Hkk. }
    destruct (find_some_exists (same_key part_000.table key)
                (l ++ [apply_sets [("Installments", a1); ("UpdatedAt", u1)] key])
                (apply_sets [("Installments", a1); ("UpdatedAt", u1)] key))
      as [z ->]; [apply in_or_app; right; left; reflexivity | exact Hnew |].
    rewrite map_app. cbn [map]. rewrite Hnew, apply_sets_overwrite.
    f_equal. rewrite <- (map_id l) at 2. apply map_ext_in.
    intros x Hx. rewrite (Hnone x Hx). reflexivity.
Qed.

(** What a valid UpdateInstallments request does on the table keyed by
    [ClientID]. *)
Lemma updateInstallments_run_on_ClientID_table
  JSON_parse env event its c o cn on payload n :
  path_param event "clientId" = Some c -> c <> EmptyString ->
  path_param event "orderId" = Some o -> o <> EmptyString ->
  parseInt c = VNum cn -> MIN_SAFE_INTEGER <= cn <= MAX_SAFE_INTEGER ->
  parseInt o = VNum on -> MIN_SAFE_INTEGER <= on <= MAX_SAFE_INTEGER ->
  JSON_parse (if truthy (body event) then the_string (body event) else "{}")
  = inr payload ->
  get_prop payload "installments" = inr (VNum n) ->
  MIN_SAFE_INTEGER <= n <= MAX_SAFE_INTEGER ->
  let key := [("ClientID", AV_N cn); ("OrderId", AV_N on)] in
  let sets := [("Installments", AV_N n);
               ("UpdatedAt", AV_S (new_Date_toISOString env))] in
  run dynamodb_send
    (updateInstallments.handler JSON_parse part_000.TABLE_NAME event env)
    {| props := part_000.table; items := its |}
  = (inr {| statusCode := 200; headers := json_headers;
            body_json := VObj [("success", VBool true);
                               ("clientId", VNum cn);
                               ("orderId", VNum on);
                               ("installments", VNum n)] |},
     {| props := part_000.table;
        items := updated_items part_000.table key sets its |},
     [UpdateItemCommand "apigateway-lambda-db" key
        [SET "Installments" ":installments"; SET "UpdatedAt" ":updatedAt"]
        None
        [(":installments", AV_N n);
         (":updatedAt", AV_S (new_Date_toISOString env))]
        "ALL_NEW"]).
Proof.
  intros Hc Hcne Ho Hone Hcn Hcs Hon Hos Hparse Hinst Hns key sets.
  unfold updateInstallments.handler, updateInstallments.try_block.
  rewrite Hc, Ho. cbn [the_string].
  rewrite (truthy_Some c Hcne), (truthy_Some o Hone).
  cbn [negb orb]. rewrite Hparse. cbn [lift bind]. rewrite Hinst, Hcn, Hon.
  cbn [lift bind]. unfold marshall.
  repeat (cbn -[Z.gtb Z.ltb same_key find]; safe_nums).
  unfold updated_items. fold key.
  destruct (find (same_key part_000.table key) its); reflexivity.
Qed.

(** X16. On the table keyed by [ClientID] and [OrderId], a valid
    UpdateInstallments request (identifiers and [installments] safe
    integers) for an order that is stored is answered 200; the table
    keeps its items in place; the order of that key then has the new
    [Installments] and the [UpdatedAt] read, and every other attribute as
    before; the other items are unchanged. *)
Theorem updateInstallments_updates_a_stored_order :
  forall JSON_parse env event its c o cn on payload n order,
    path_param event "clientId" = Some c -> c <> EmptyString ->
    path_param event "orderId" = Some o -> o <> EmptyString ->
    parseInt c = VNum cn -> MIN_SAFE_INTEGER <= cn <= MAX_SAFE_INTEGER ->
    parseInt o = VNum on -> MIN_SAFE_INTEGER <= on <= MAX_SAFE_INTEGER ->
    JSON_parse (if truthy (body event) then the_string (body event) else "{}")
    = inr payload ->
    get_prop payload "installments" = inr (VNum n) ->
    MIN_SAFE_INTEGER <= n <= MAX_SAFE_INTEGER ->
    let key := [("ClientID", AV_N cn); ("OrderId", AV_N on)] in
    In order its -> same_key part_000.table key order = true ->
    exists its' tr,
      run dynamodb_send
        (updateInstallments.handler JSON_parse part_000.TABLE_NAME event env)
        {| props := part_000.table; items := its |}
      = (inr {| statusCode := 200; headers := json_headers;
                body_json := VObj [("success", VBool true);
                                   ("clientId", VNum cn);
                                   ("orderId", VNum on);
                                   ("installments", VNum n)] |},
         {| props := part_000.table; items := its' |}, tr)
      /\ Forall2
           (fun old new =>
              if same_key part_000.table key old
              then assoc "Installments" new = Some (AV_N n)
                   /\ assoc "UpdatedAt" new
                      = Some (AV_S (new_Date_toISOString env))
                   /\ same_but_installments old new
              else new = old)
           its its'.
Proof.
  intros JSON_parse env event its c o cn on payload n order
    Hc Hcne Ho Hone Hcn Hcs Hon Hos Hparse Hinst Hns key Hin Hkey.
  eexists. eexists. split.
  - apply (updateInstallments_run_on_ClientID_table JSON_parse env event its
             c o cn on payload n); assumption.
  - fold key. unfold updated_items.
    destruct (find_some_exists _ _ _ Hin Hkey) as [y ->].
    clear Hin. induction its as [|it l IH]; cbn [map]; constructor; [|exact IH].
    destruct (same_key part_000.table key it); [|reflexivity].
    unfold apply_sets. cbn [fold_left fst snd].
    split; [|split].
    + rewrite assoc_set_attr_other by discriminate.
      apply assoc_set_attr_same.
    + apply assoc_set_attr_same.
    + intros a Ha Hb. rewrite !assoc_set_attr_other by assumption.
      reflexivity.
Qed.

(** An order of client 1 as a table keyed by [ClientID] holds it. *)
Example stored_order_5 :
  same_key part_000.table [("ClientID", AV_N 1); ("OrderId", AV_N 5)]
    [("ClientID", AV_N 1); ("OrderId", AV_N 5); ("PaymentMethod", AV_S "pix");
     ("Installments", AV_N 3)]
  = true.
Proof. reflexivity. Qed.

(** X16 on the order (1, 5), stored with three installments and paid by
    pix, updated to six. *)
Lemma updateInstallments_updates_a_stored_order_witness :
  let order :=
    [("ClientID", AV_N 1); ("OrderId", AV_N 5); ("PaymentMethod", AV_S "pix");
     ("Installments", AV_N 3)] in
  let key := [("ClientID", AV_N 1); ("OrderId", AV_N 5)] in
  exists its' tr,
    run dynamodb_send
      (updateInstallments.handler sample_parse part_000.TABLE_NAME
         (update_event "1" "5" six_text) sample_env)
      {| props := part_000.table; items := [order] |}
    = (inr {| statusCode := 200; headers := json_headers;
              body_json := VObj [("success", VBool true);
                                 ("clientId", VNum 1);
                                 ("orderId", VNum 5);
                                 ("installments", VNum 6)] |},
       {| props := part_000.table; items := its' |}, tr)
    /\ Forall2
         (fun old new =>
            if same_key part_000.table key old
            then assoc "Installments" new = Some (AV_N 6)
                 /\ assoc "UpdatedAt" new
                    = Some (AV_S (new_Date_toISOString sample_env))
                 /\ same_but_installments old new
            else new = old)
         [order] its'.
Proof.
  intros order key.
  refine (updateInstallments_updates_a_stored_order sample_parse sample_env
            (update_event "1" "5" six_text) [order] "1" "5" 1 5 six_payload 6
            order eq_refl _ eq_refl _ eq_refl _ eq_refl _ eq_refl eq_refl _
            _ _).
  - discriminate.
  - discriminate.
  - unfold MIN_SAFE_INTEGER, MAX_SAFE_INTEGER. lia.
  - unfold MIN_SAFE_INTEGER, MAX_SAFE_INTEGER. lia.
  - unfold MIN_SAFE_INTEGER, MAX_SAFE_INTEGER. lia.
  - left. reflexivity.
  - reflexivity.
Defined.

(** X17. On the table keyed by [ClientID] and [OrderId], two valid
    UpdateInstallments requests for the same order, one after the other:
    the table is the one the second request alone would have left (the
    last write wins, stored order or not), and a request repeated with
    the same time leaves the table as its first run left it. *)
Theorem updateInstallments_last_write_wins :
  forall JSON_parse env1 env2 event1 event2 its c o cn on
         payload1 payload2 n1 n2,
    path_param event1 "clientId" = Some c ->
    path_param event2 "clientId" = Some c -> c <> EmptyString ->
    path_param event1 "orderId" = Some o ->
    path_param event2 "orderId" = Some o -> o <> EmptyString ->
    parseInt c = VNum cn -> MIN_SAFE_INTEGER <= cn <= MAX_SAFE_INTEGER ->
    parseInt o = VNum on -> MIN_SAFE_INTEGER <= on <= MAX_SAFE_INTEGER ->
    JSON_parse (if truthy (body event1) then the_string (body event1)
                else "{}") = inr payload1 ->
    get_prop payload1 "installments" = inr (VNum n1) ->
    MIN_SAFE_INTEGER <= n1 <= MAX_SAFE_INTEGER ->
    JSON_parse (if truthy (body event2) then the_string (body event2)
                else "{}") = inr payload2 ->
    get_prop payload2 "installments" = inr (VNum n2) ->
    MIN_SAFE_INTEGER <= n2 <= MAX_SAFE_INTEGER ->
    let update event env db :=
      snd (fst (run dynamodb_send
                  (updateInstallments.handler JSON_parse part_000.TABLE_NAME
                     event env) db)) in
    let db := {| props := part_000.table; items := its |} in
    update event2 env2 (update event1 env1 db) = update event2 env2 db
    /\ update event1 env1 (update event1 env1 db) = update event1 env1 db.
Proof.
  intros JSON_parse env1 env2 event1 event2 its c o cn on payload1 payload2
    n1 n2 Hc1 Hc2 Hcne Ho1 Ho2 Hone Hcn Hcs Hon Hos Hp1 Hi1 Hs1 Hp2 Hi2 Hs2
    update db.
  assert (H1 : forall l,
             update event1 env1 {| props := part_000.table; items := l |}
             = {| props := part_000.table;
                  items :=
                    updated_items part_000.table
                      [("ClientID", AV_N cn); ("OrderId", AV_N on)]
                      [("Installments", AV_N n1);
                       ("UpdatedAt", AV_S (new_Date_toISOString env1))] l |}).
  { intros l. unfold update.
    rewrite (updateInstallments_run_on_ClientID_table JSON_parse env1 event1 l
               c o cn on payload1 n1); auto. }
  assert (H2 : forall l,
             update event2 env2 {| props := part_000.table; items := l |}
             = {| props := part_000.table;
                  items :=
                    updated_items part_000.table
                      [("ClientID", AV_N cn); ("OrderId", AV_N on)]
                      [("Installments", AV_N n2);
                       ("UpdatedAt", AV_S (new_Date_toISOString env2))] l |}).
  { intros l. unfold update.
    rewrite (updateInstallments_run_on_ClientID_table JSON_parse env2 event2 l
               c o cn on payload2 n2); auto. }
  unfold db. rewrite !H1, !H2.
  split; f_equal; apply updated_items_overwrite.
Qed.

(** X17 on the order (1, 5) of the empty table: six installments, then
    twelve one millisecond later. *)
Lemma updateInstallments_last_write_wins_witness :
  let update event env db :=
    snd (fst (run dynamodb_send
                (updateInstallments.handler sample_parse part_000.TABLE_NAME
                   event env) db)) in
  let db := {| props := part_000.table; items := [] |} in
  update (update_event "1" "5" other_text) later_env
    (update (update_event "1" "5" six_text) sample_env db)
  = update (update_event "1" "5" other_text) later_env db
  /\ update (update_event "1" "5" six_text) sample_env
       (update (update_event "1" "5" six_text) sample_env db)
     = update (update_event "1" "5" six_text) sample_env db.
Proof.
  refine (updateInstallments_last_write_wins sample_parse sample_env later_env
            (update_event "1" "5" six_text) (update_event "1" "5" other_text)
            [] "1" "5" 1 5 six_payload other_payload 6 12
            eq_refl eq_refl _ eq_refl eq_refl _ eq_refl _ eq_refl _
            eq_refl eq_refl _ eq_refl eq_refl _).
  - discriminate.
  - discriminate.
  - unfold MIN_SAFE_INTEGER, MAX_SAFE_INTEGER. lia.
  - unfold MIN_SAFE_INTEGER, MAX_SAFE_INTEGER. lia.
  - unfold MIN_SAFE_INTEGER, MAX_SAFE_INTEGER. lia.
  - unfold MIN_SAFE_INTEGER, MAX_SAFE_INTEGER. lia.
Defined.

(** X18. On any table, whatever the request and its outcome,
    UpdateInstallments keeps every stored item in place and changes
    nothing in it but [Installments] and [UpdatedAt]; it adds at most what
    follows the stored items. *)
Theorem updateInstallments_changes_only_two_attributes :
  forall JSON_parse TABLE_NAME event env db,
    let db' :=
      snd (fst (run dynamodb_send
                  (updateInstallments.handler JSON_parse TABLE_NAME event env)
                  db)) in
    props db' = props db
    /\ exists kept added : list Item,
        items db' = (kept ++ added)%list
        /\ Forall2 same_but_installments (items db) kept.
Proof. exact updateInstallments_frame. Qed.

(** X19. On the table of the stack, no UpdateInstallments request is
    ever answered 200, and the table is left as it was: the key the
    handler sends names [ClientID], the table declares [ClientId]. *)
Theorem updateInstallments_never_succeeds_on_the_stack_table :
  forall JSON_parse event env its,
  exists r tr,
    run dynamodb_send
      (updateInstallments.handler JSON_parse
         AwsApigatewayLambdaCdkStack.TABLE_NAME event env)
      (deployed its)
    = (inr r, deployed its, tr)
    /\ statusCode r <> 200.
Proof. exact updateInstallments_rejected_on_declared_table. Qed.

(** X20. On the table of the stack, whatever the request and its
    outcome, CreateOrder keeps the stored items as they are when none of
    them has the generated [OrderId]; it can only add after them. *)
Theorem createOrder_keeps_the_stored_orders :
  forall JSON_parse TABLE_NAME event env its,
    (forall it, In it its ->
                attr_is "OrderId" (AV_N (createOrder.generateOrderId env)) it
                = false) ->
    exists added : list Item,
      snd (fst (run dynamodb_send
                  (createOrder.handler JSON_parse TABLE_NAME event env)
                  (deployed its)))
      = deployed (its ++ added).
Proof. exact createOrder_keeps_stored_orders. Qed.

(** X20 on the table that holds the scenario order, one millisecond
    later. *)
Lemma createOrder_keeps_the_stored_orders_witness :
  exists added : list Item,
    snd (fst (run dynamodb_send
                (createOrder.handler sample_parse
                   AwsApigatewayLambdaCdkStack.TABLE_NAME
                   (create_event other_text) later_env)
                (deployed [scenario_item])))
    = deployed ([scenario_item] ++ added).
Proof.
  apply createOrder_keeps_the_stored_orders.
  intros it [<-|[]]. reflexivity.
Defined.
